(** * Data explorer: filters, charts, profiling, preview and store

    A shallow embedding of [utils.py], [filters.py], [charts.py],
    [profiling.py] and [store.py] of the data explorer server, together
    with the properties of the filter, chart, profile and preview engines
    and of the dataset registry.

    Modelling conventions.
    - A pandas [DataFrame] is a list of named, typed columns over a list of
      rows; a cell is a tagged scalar.  Row labels play no part in the
      functions below (every access is positional or by boolean mask).
    - Python floats are exact rationals ([Q]); [NaN], [None], [NaT] and
      [pd.NA] are the single missing cell [CNull].  Infinities are not
      represented.
    - Python exceptions are values of [Exn]; a function that can raise
      returns a [Result].
    - Library routines whose result is not determined by the repository
      (parsing a string as a number, parsing a date, formatting a
      timestamp, the floating square root, the memory footprint) are
      variables of the section. *)

From Stdlib Require Import String Ascii List ZArith QArith Qround Bool Lia.
From Stdlib Require Import Permutation Sorted Lqa.
Import ListNotations.

Local Open Scope string_scope.
Local Open Scope list_scope.
Local Open Scope Z_scope.

(** ** Scalars *)

Inductive Cell : Type :=
| CNull
| CBool (b : bool)
| CInt (z : Z)
| CFloat (q : Q)
| CStr (s : string)
| CTime (t : Z).

(** A Python float: not-a-number or a finite value. *)
Inductive PyFloat : Type :=
| FNaN
| FVal (q : Q).

Definition cell_of_float (f : PyFloat) : Cell :=
  match f with
  | FNaN => CNull
  | FVal q => CFloat q
  end.

(** [pd.isna] on a scalar. *)
Definition isna (c : Cell) : bool :=
  match c with
  | CNull => true
  | _ => false
  end.

Definition notna (c : Cell) : bool := negb (isna c).

(** The numeric reading of a cell that Python compares as a number
    ([bool] is a subtype of [int]). *)
Definition num_of (c : Cell) : option Q :=
  match c with
  | CBool b => Some (if b then 1%Q else 0%Q)
  | CInt z => Some (inject_Z z)
  | CFloat q => Some q
  | _ => None
  end.

(** ** Exceptions and results *)

Inductive Exn : Type :=
| KeyError (column : string)
| ValueError (msg : string)
| TypeError (msg : string)
| ValidationError (field : string).

Inductive Result (A : Type) : Type :=
| Raise (e : Exn)
| Ok (a : A).

Arguments Raise {A} e.
Arguments Ok {A} a.

Definition bind {A B : Type} (r : Result A) (k : A -> Result B) : Result B :=
  match r with
  | Raise e => Raise e
  | Ok a => k a
  end.

Notation "x <- r ;; k" := (bind r (fun x => k))
  (at level 61, r at next level, right associativity).

(** ** Dtypes, series and frames *)

Inductive Dtype : Type :=
| DBool
| DInt
| DFloat
| DDatetime
| DCategory
| DString
| DObject
| DOther.

Definition is_bool_dtype (d : Dtype) : bool :=
  match d with DBool => true | _ => false end.

(** pandas counts booleans among the numeric dtypes. *)
Definition is_numeric_dtype (d : Dtype) : bool :=
  match d with DBool | DInt | DFloat => true | _ => false end.

Definition is_datetime64_any_dtype (d : Dtype) : bool :=
  match d with DDatetime => true | _ => false end.

Definition is_categorical_dtype (d : Dtype) : bool :=
  match d with DCategory => true | _ => false end.

(** Given a dtype alone, pandas answers for [object] as for strings. *)
Definition is_string_dtype (d : Dtype) : bool :=
  match d with DString | DObject => true | _ => false end.

Record Series : Type := mkSeries {
  dtype : Dtype;
  values : list Cell
}.

Record DataFrame : Type := mkFrame {
  columns : list string;
  dtypes : list Dtype;
  rows : list (list Cell)
}.

Fixpoint index_of (name : string) (names : list string) : option nat :=
  match names with
  | [] => None
  | n :: rest =>
      if String.eqb name n then Some O
      else option_map S (index_of name rest)
  end.

(** [column in dataframe.columns] *)
Definition has_column (df : DataFrame) (column : string) : bool :=
  match index_of column (columns df) with
  | Some _ => true
  | None => false
  end.

Definition cell_at (j : nat) (row : list Cell) : Cell := nth j row CNull.

Definition column_at (df : DataFrame) (j : nat) : Series :=
  {| dtype := nth j (dtypes df) DObject;
     values := map (cell_at j) (rows df) |}.

(** [dataframe[column]] *)
Definition get_column (df : DataFrame) (column : string) : option Series :=
  option_map (column_at df) (index_of column (columns df)).

(** [dataframe.shape[0]] *)
Definition nrows (df : DataFrame) : nat := length (rows df).

(** ** Python string helpers (ASCII) *)

(** [str.isspace] on one character: tab to carriage return, the four
    separators 28 to 31, and the space. *)
Definition is_space (c : ascii) : bool :=
  let n := nat_of_ascii c in
  ((9 <=? n)%nat && (n <=? 13)%nat) || ((28 <=? n)%nat && (n <=? 32)%nat).

Fixpoint lstrip (s : string) : string :=
  match s with
  | EmptyString => EmptyString
  | String c rest => if is_space c then lstrip rest else s
  end.

Fixpoint rstrip (s : string) : string :=
  match s with
  | EmptyString => EmptyString
  | String c rest =>
      match rstrip rest with
      | EmptyString => if is_space c then EmptyString else String c EmptyString
      | kept => String c kept
      end
  end.

(** [str.strip()] *)
Definition strip (s : string) : string := rstrip (lstrip s).

Definition lower_ascii (c : ascii) : ascii :=
  let n := nat_of_ascii c in
  if ((65 <=? n)%nat && (n <=? 90)%nat) then ascii_of_nat (n + 32) else c.

(** [str.lower()] *)
Fixpoint lower (s : string) : string :=
  match s with
  | EmptyString => EmptyString
  | String c rest => String (lower_ascii c) (lower rest)
  end.

Definition string_in (s : string) (l : list string) : bool :=
  existsb (String.eqb s) l.

(** ** Filters ([schemas.py]) *)

(** [EqualsFilter.value] is any scalar; [RangeFilter.min] and [max] are
    optional, [None] being Python's [None]. *)
Inductive Filter : Type :=
| EqualsFilter (column : string) (value : Cell)
| RangeFilter (column : string) (min max : option Cell).

Definition filter_column (f : Filter) : string :=
  match f with
  | EqualsFilter c _ => c
  | RangeFilter c _ _ => c
  end.

(** ** Masks *)

(** [mask &= other] *)
Definition and_mask (mask other : list bool) : list bool :=
  map (fun p => andb (fst p) (snd p)) (combine mask other).

(** Boolean indexing of a list of rows. *)
Definition select {A : Type} (l : list A) (mask : list bool) : list A :=
  map fst (filter snd (combine l mask)).

(** [dataframe[mask]] *)
Definition df_mask (df : DataFrame) (mask : list bool) : DataFrame :=
  {| columns := columns df;
     dtypes := dtypes df;
     rows := select (rows df) mask |}.

(** [series.isna()] *)
Definition series_isna (s : Series) : list bool := map isna (values s).

(** Python [==] between two scalars, as pandas applies it element by
    element: a missing cell equals nothing, numbers compare by value,
    strings with strings, timestamps with timestamps. *)
Definition py_eq (c v : Cell) : bool :=
  match c, v with
  | CNull, _ => false
  | _, CNull => false
  | CStr a, CStr b => String.eqb a b
  | CTime a, CTime b => Z.eqb a b
  | _, _ =>
      match num_of c, num_of v with
      | Some a, Some b => Qeq_bool a b
      | _, _ => false
      end
  end.

(** [series == value] *)
Definition series_eq (s : Series) (v : Cell) : list bool :=
  map (fun c => py_eq c v) (values s).

Inductive CmpOp : Type := GE | LE.

Definition cmp_Q (op : CmpOp) (a b : Q) : bool :=
  match op with
  | GE => Qle_bool b a
  | LE => Qle_bool a b
  end.

Definition cmp_Z (op : CmpOp) (a b : Z) : bool :=
  match op with
  | GE => Z.leb b a
  | LE => Z.leb a b
  end.

Definition cmp_string (op : CmpOp) (a b : string) : bool :=
  match op with
  | GE => String.leb b a
  | LE => String.leb a b
  end.

(** Python [>=] or [<=] on one element: a missing cell gives [False], an
    order between values of different kinds raises [TypeError]. *)
Definition py_cmp (op : CmpOp) (c v : Cell) : Result bool :=
  match c, v with
  | CNull, _ => Ok false
  | CStr a, CStr b => Ok (cmp_string op a b)
  | CTime a, CTime b => Ok (cmp_Z op a b)
  | _, _ =>
      match num_of c, num_of v with
      | Some a, Some b => Ok (cmp_Q op a b)
      | _, _ => Raise (TypeError "comparison not supported")
      end
  end.

Fixpoint mapM {A B : Type} (f : A -> Result B) (l : list A) : Result (list B) :=
  match l with
  | [] => Ok []
  | a :: rest =>
      b <- f a ;;
      bs <- mapM f rest ;;
      Ok (b :: bs)
  end.

Definition is_str (c : Cell) : bool :=
  match c with CStr _ => true | _ => false end.

(** [series >= value] and [series <= value]: against a missing scalar the
    answer is all [False]; a numeric column against a string is an invalid
    comparison; otherwise the elements are compared one by one. *)
Definition series_cmp (op : CmpOp) (s : Series) (v : Cell) : Result (list bool) :=
  if isna v then Ok (map (fun _ => false) (values s))
  else if is_numeric_dtype (dtype s) && is_str v
       then Raise (TypeError "Invalid comparison")
       else mapM (fun c => py_cmp op c v) (values s).

(** [bool(value)] *)
Definition py_bool (c : Cell) : bool :=
  match c with
  | CNull => false
  | CBool b => b
  | CInt z => negb (Z.eqb z 0)
  | CFloat q => negb (Qeq_bool q 0)
  | CStr s => negb (String.eqb s EmptyString)
  | CTime _ => true
  end.

(** [ensure_column_exists] ([utils.py]) *)
Definition ensure_column_exists (df : DataFrame) (column : string) : Result Series :=
  match get_column df column with
  | None => Raise (KeyError column)
  | Some s => Ok s
  end.

(** ** A reference reading of numerals

    The concrete evaluations further down need a reading of strings as
    numbers.  [parse_natural] reads a non-empty string of ASCII digits as
    Python's [float] and pandas' [to_numeric] do, and rejects every string
    holding another character. *)

Definition digit_of (c : ascii) : option Z :=
  let n := nat_of_ascii c in
  if ((48 <=? n)%nat && (n <=? 57)%nat) then Some (Z.of_nat (n - 48)) else None.

Fixpoint digits_value (s : string) (acc : Z) : option Z :=
  match s with
  | EmptyString => Some acc
  | String c rest =>
      match digit_of c with
      | Some d => digits_value rest (10 * acc + d)
      | None => None
      end
  end.

Definition parse_natural (s : string) : option PyFloat :=
  match s with
  | EmptyString => None
  | _ => option_map (fun z => FVal (inject_Z z)) (digits_value s 0)
  end.

Definition coerce_natural (s : string) : PyFloat :=
  match parse_natural s with
  | Some f => f
  | None => FNaN
  end.

Section DataExplorer.

(** Python's [float(str)]: [None] when it raises [ValueError]. *)
Variable py_float : string -> option PyFloat.

(** [pd.to_numeric(..., errors="coerce")] on one string. *)
Variable to_numeric_str : string -> PyFloat.

(** [pd.to_datetime(value, errors="coerce")] on a scalar: [None] when it
    raises, [Some CNull] for [NaT]. *)
Variable to_datetime : Cell -> option Cell.

(** [Timestamp.isoformat()] *)
Variable isoformat : Z -> string.

(** The floating square root behind [Series.std]. *)
Variable sqrt : Q -> Q.

(** [float(value)] on a scalar; [None] when it raises. *)
Definition float_of_cell (c : Cell) : option PyFloat :=
  match c with
  | CNull => Some FNaN
  | CBool b => Some (FVal (if b then 1%Q else 0%Q))
  | CInt z => Some (FVal (inject_Z z))
  | CFloat q => Some (FVal q)
  | CStr s => py_float s
  | CTime _ => None
  end.

(** [to_python_value] ([utils.py]): scalars pass through, timestamps are
    formatted, and a missing value stays the missing cell. *)
Definition to_python_value (value : Cell) : Cell :=
  match value with
  | CTime t => CStr (isoformat t)
  | other => other
  end.

(** [coerce_value_for_series] ([utils.py]).  The three dtype tests are
    tried in the order of the source; whatever raises inside them is
    caught and the raw value returned. *)
Definition coerce_value_for_series (series : Series) (value : Cell) : Cell :=
  if isna value then value
  else
    let dt := dtype series in
    if is_numeric_dtype dt then
      match value with
      | CStr s =>
          if String.eqb (strip s) EmptyString then CNull
          else match py_float s with
               | Some f => cell_of_float f
               | None => value
               end
      | _ =>
          match float_of_cell value with
          | Some f => cell_of_float f
          | None => value
          end
      end
    else if is_bool_dtype dt then
      match value with
      | CStr s =>
          let lowered := lower (strip s) in
          if string_in lowered ["true"; "1"; "yes"] then CBool true
          else if string_in lowered ["false"; "0"; "no"] then CBool false
          else CBool (py_bool value)
      | _ => CBool (py_bool value)
      end
    else if is_datetime64_any_dtype dt then
      match to_datetime value with
      | Some v => v
      | None => value
      end
    else value.

(** ** [filters.py] *)

(** One turn of the loop of [apply_filters]. *)
Definition filter_step (df : DataFrame) (mask : list bool) (raw_filter : Filter)
  : Result (list bool) :=
  match ensure_column_exists df (filter_column raw_filter) with
  | Raise (KeyError _) => Ok mask
  | Raise e => Raise e
  | Ok series =>
      match raw_filter with
      | EqualsFilter _ v =>
          let value := coerce_value_for_series series v in
          if isna value then Ok (and_mask mask (series_isna series))
          else Ok (and_mask mask (series_eq series value))
      | RangeFilter _ lo hi =>
          mask1 <- match lo with
                   | None => Ok mask
                   | Some v =>
                       let min_value := coerce_value_for_series series v in
                       m <- series_cmp GE series min_value ;;
                       Ok (and_mask mask m)
                   end ;;
          match hi with
          | None => Ok mask1
          | Some v =>
              let max_value := coerce_value_for_series series v in
              m <- series_cmp LE series max_value ;;
              Ok (and_mask mask1 m)
          end
      end
  end.

Fixpoint filter_loop (df : DataFrame) (filters : list Filter) (mask : list bool)
  : Result (list bool) :=
  match filters with
  | [] => Ok mask
  | f :: rest =>
      m <- filter_step df mask f ;;
      filter_loop df rest m
  end.

(** [apply_filters] *)
Definition apply_filters (df : DataFrame) (filters : list Filter) : Result DataFrame :=
  match filters with
  | [] => Ok df
  | _ =>
      mask <- filter_loop df filters (repeat true (nrows df)) ;;
      Ok (df_mask df mask)
  end.

(** ** [convert_dtypes]

    pandas picks, column by column, the best nullable dtype: a float
    column whose present values are all whole becomes an integer column,
    an [object] column takes the dtype of its present values when they
    agree (strings, booleans, integers, floats) and stays [object]
    otherwise.  The number and order of rows never change. *)

Definition is_whole (q : Q) : bool := Qeq_bool (inject_Z (Qfloor q)) q.

Definition cell_is_bool (c : Cell) : bool :=
  match c with CBool _ => true | _ => false end.

Definition cell_is_int (c : Cell) : bool :=
  match c with CInt _ => true | _ => false end.

Definition cell_is_number (c : Cell) : bool :=
  match c with CInt _ | CFloat _ => true | _ => false end.

Definition cell_is_whole (c : Cell) : bool :=
  match c with
  | CInt _ => true
  | CFloat q => is_whole q
  | _ => false
  end.

Definition converted_dtype (s : Series) : Dtype :=
  let present := filter notna (values s) in
  match dtype s with
  | DFloat => if forallb cell_is_whole present then DInt else DFloat
  | DObject =>
      match present with
      | [] => DObject
      | _ =>
          if forallb is_str present then DString
          else if forallb cell_is_bool present then DBool
          else if forallb cell_is_int present then DInt
          else if forallb cell_is_number present then
                 (if forallb cell_is_whole present then DInt else DFloat)
          else DObject
      end
  | d => d
  end.

Definition convert_cell (d : Dtype) (c : Cell) : Cell :=
  match d, c with
  | DInt, CFloat q => CInt (Qfloor q)
  | DFloat, CInt z => CFloat (inject_Z z)
  | _, _ => c
  end.

Definition convert_row (ds : list Dtype) (row : list Cell) : list Cell :=
  map (fun p => convert_cell (fst p) (snd p)) (combine ds row).

Definition convert_dtypes (df : DataFrame) : DataFrame :=
  let ds := map (fun j => converted_dtype (column_at df j))
                (seq 0 (length (columns df))) in
  {| columns := columns df;
     dtypes := ds;
     rows := map (convert_row ds) (rows df) |}.

(** ** Rows as dictionaries

    [to_dict(orient="records")] and the frames built inside the chart
    functions are lists of rows, each a dictionary from column name to
    cell; assigning a column under a name already present replaces it. *)

Definition WRow : Type := list (string * Cell).

Fixpoint get (k : string) (r : WRow) : Cell :=
  match r with
  | [] => CNull
  | (k', v) :: rest => if String.eqb k k' then v else get k rest
  end.

Fixpoint upd (k : string) (v : Cell) (r : WRow) : WRow :=
  match r with
  | [] => [(k, v)]
  | (k', v') :: rest =>
      if String.eqb k k' then (k, v) :: rest else (k', v') :: upd k v rest
  end.

(** [working[name] = column], also [working.assign(name=column)] *)
Definition set_col (name : string) (column : list Cell) (w : list WRow) : list WRow :=
  map (fun p => upd name (snd p) (fst p)) (combine w column).

(** One row of a frame as a dictionary, in column order. *)
Definition record_of (cols : list string) (row : list Cell) : WRow :=
  map (fun p => (snd p, cell_at (fst p) row))
      (combine (seq 0 (length cols)) cols).

(** [dataframe.to_dict(orient="records")] *)
Definition records (df : DataFrame) : list WRow :=
  map (record_of (columns df)) (rows df).

(** ** Preview ([utils.py]) *)

(** A Python slice [l[start:stop]] with step one: negative bounds count
    from the end, and both are clamped to the list. *)
Definition slice_bound (len i : Z) : Z :=
  if i <? 0 then Z.max 0 (i + len) else Z.min i len.

Definition py_slice {A : Type} (l : list A) (start stop : Z) : list A :=
  let len := Z.of_nat (length l) in
  let a := slice_bound len start in
  let b := slice_bound len stop in
  firstn (Z.to_nat (b - a)) (skipn (Z.to_nat a) l).



(** ** Profiling ([utils.py], [profiling.py]) *)

(** [series.dropna()] *)
Definition dropna (l : list Cell) : list Cell := filter notna l.

(** [series_sample] *)
Definition series_sample (series : Series) (limit : nat) : list Cell :=
  map to_python_value (firstn limit (dropna (values series))).

(** The distinct values of a list, each at its first occurrence. *)
Fixpoint unique (l : list Cell) : list Cell :=
  match l with
  | [] => []
  | x :: rest => x :: filter (fun y => negb (py_eq y x)) (unique rest)
  end.

(** [series.nunique(dropna=True)] *)
Definition nunique (series : Series) : nat :=
  length (unique (dropna (values series))).

Inductive Role : Type :=
| RBoolean
| RNumeric
| RDatetime
| RCategorical
| RText.

(** [infer_role] *)
Definition infer_role (series : Series) : Role :=
  let dt := dtype series in
  if is_bool_dtype dt then RBoolean
  else if is_numeric_dtype dt then RNumeric
  else if is_datetime64_any_dtype dt then RDatetime
  else if is_categorical_dtype dt then RCategorical
  else if is_string_dtype dt then
    let unique_ratio :=
      (inject_Z (Z.of_nat (nunique series))
       / inject_Z (Z.of_nat (Nat.max (length (values series)) 1)))%Q in
    if Qlt_le_dec (6 # 10) unique_ratio then RText else RCategorical
  else RText.

Definition count_of (v : Cell) (l : list Cell) : Z :=
  Z.of_nat (length (filter (fun c => py_eq c v) l)).

(** Insertion into a list kept in descending order of count; among equal
    counts the value met first stays first. *)
Fixpoint insert_desc (e : Cell * Z) (l : list (Cell * Z)) : list (Cell * Z) :=
  match l with
  | [] => [e]
  | h :: rest =>
      if snd h <? snd e then e :: l else h :: insert_desc e rest
  end.

Definition sort_desc (l : list (Cell * Z)) : list (Cell * Z) :=
  fold_left (fun acc e => insert_desc e acc) l [].

(** [series.value_counts(dropna=True)]: every distinct present value with
    its number of occurrences, most frequent first. *)
Definition value_counts (series : Series) : list (Cell * Z) :=
  let present := dropna (values series) in
  sort_desc (map (fun v => (v, count_of v present)) (unique present)).

Record TopValue : Type := mkTopValue {
  tv_value : Cell;
  tv_count : Z;
  tv_percentage : Q
}.

Definition sum_Z (l : list Z) : Z := fold_right Z.add 0 l.

(** [top_value_counts]: the total is taken over the retained head of the
    frequency table, [or 1] when that is zero. *)
Definition top_value_counts (series : Series) (limit : nat) : list TopValue :=
  let counts := firstn limit (value_counts series) in
  let s := sum_Z (map snd counts) in
  let total := if s =? 0 then 1 else s in
  map (fun e =>
         {| tv_value := to_python_value (fst e);
            tv_count := snd e;
            tv_percentage := (inject_Z (snd e) / inject_Z total)%Q |})
      counts.

(** *** Numeric statistics *)

Definition sum_Q (l : list Q) : Q := fold_right Qplus 0%Q l.

Definition len_Q (l : list Q) : Q := inject_Z (Z.of_nat (length l)).

Definition min_Q (x : Q) (l : list Q) : Q :=
  fold_left (fun m v => if Qle_bool v m then v else m) l x.

Definition max_Q (x : Q) (l : list Q) : Q :=
  fold_left (fun m v => if Qle_bool m v then v else m) l x.

Definition mean_Q (l : list Q) : Q := (sum_Q l / len_Q l)%Q.

Fixpoint insert_Q (x : Q) (l : list Q) : list Q :=
  match l with
  | [] => [x]
  | h :: rest => if Qle_bool x h then x :: l else h :: insert_Q x rest
  end.

Definition sort_Q (l : list Q) : list Q := fold_right insert_Q [] l.

(** [Series.median]: the middle value of the sorted data, or the mean of
    the two middle values. *)
Definition median_Q (l : list Q) : Q :=
  let sorted := sort_Q l in
  let n := length l in
  if Nat.even n
  then ((nth (n / 2 - 1) sorted 0 + nth (n / 2) sorted 0) / 2)%Q
  else nth (n / 2) sorted 0%Q.

(** [Series.std(ddof=...)]: the divisor is the number of values less
    [ddof]. *)
Definition std_Q (ddof : Z) (l : list Q) : Q :=
  let m := mean_Q l in
  let squares := map (fun v => ((v - m) * (v - m))%Q) l in
  sqrt (sum_Q squares / inject_Z (Z.of_nat (length l) - ddof))%Q.

(** [series.dropna().astype("float64")]: raises when a present value has
    no floating reading, which a numeric column never holds. *)
Definition astype_float64 (l : list Cell) : Result (list Q) :=
  mapM (fun c =>
          match float_of_cell c with
          | Some (FVal q) => Ok q
          | _ => Raise (ValueError "could not convert to float")
          end) l.

Record NumericStats : Type := mkNumericStats {
  st_min : option Q;
  st_max : option Q;
  st_mean : option Q;
  st_median : option Q;
  st_stdDev : option Q
}.

Inductive Stats : Type :=
| StatsNumeric (st : NumericStats)
| StatsDatetime (dmin dmax : option string).

(** [_numeric_stats] *)
Definition _numeric_stats (series : Series) : Result NumericStats :=
  clean <- astype_float64 (dropna (values series)) ;;
  match clean with
  | [] => Ok {| st_min := None; st_max := None; st_mean := None;
                st_median := None; st_stdDev := None |}
  | x :: rest =>
      Ok {| st_min := Some (min_Q x rest);
            st_max := Some (max_Q x rest);
            st_mean := Some (mean_Q clean);
            st_median := Some (median_Q clean);
            st_stdDev := Some (std_Q 0 clean) |}
  end.

Definition time_of (c : Cell) : list Z :=
  match to_datetime c with
  | Some (CTime t) => [t]
  | _ => []
  end.

Definition min_Z (x : Z) (l : list Z) : Z := fold_left Z.min l x.
Definition max_Z (x : Z) (l : list Z) : Z := fold_left Z.max l x.

(** [_datetime_stats] *)
Definition _datetime_stats (series : Series) : Stats :=
  match flat_map time_of (dropna (values series)) with
  | [] => StatsDatetime None None
  | t :: rest =>
      StatsDatetime (Some (isoformat (min_Z t rest)))
                    (Some (isoformat (max_Z t rest)))
  end.

(** [str(series.dtype)] after [convert_dtypes]. *)
Definition dtype_name (d : Dtype) : string :=
  match d with
  | DBool => "boolean"
  | DInt => "Int64"
  | DFloat => "Float64"
  | DDatetime => "datetime64[ns]"
  | DCategory => "category"
  | DString => "string"
  | DObject => "object"
  | DOther => "other"
  end.

Record ColumnProfile : Type := mkColumnProfile {
  cp_name : string;
  cp_role : Role;
  cp_dtype : string;
  cp_nonNullCount : Z;
  cp_missingCount : Z;
  cp_missingProportion : Q;
  cp_distinctCount : Z;
  cp_sampleValues : list Cell;
  cp_stats : option Stats;
  cp_topValues : option (list TopValue)
}.

Record Profile : Type := mkProfile {
  rowCount : Z;
  columnCount : Z;
  profile_columns : list ColumnProfile;
  memoryUsageBytes : Z
}.

(** [frame.memory_usage(deep=True).sum()] *)
Variable memory_usage : DataFrame -> Z.

Definition count_true (l : list bool) : Z :=
  Z.of_nat (length (filter (fun b => b) l)).

(** The body of the loop of [profile_dataframe] for one column. *)
Definition profile_column (total_rows : Z) (column : string) (series : Series)
  : Result ColumnProfile :=
  let role := infer_role series in
  let missing := count_true (series_isna series) in
  let non_null := total_rows - missing in
  let distinct := Z.of_nat (nunique series) in
  stats <- match role with
           | RNumeric =>
               st <- _numeric_stats series ;;
               Ok (Some (StatsNumeric st))
           | RDatetime => Ok (Some (_datetime_stats series))
           | _ => Ok None
           end ;;
  Ok {| cp_name := column;
        cp_role := role;
        cp_dtype := dtype_name (dtype series);
        cp_nonNullCount := non_null;
        cp_missingCount := missing;
        cp_missingProportion :=
          (if total_rows =? 0 then 0
           else inject_Z missing / inject_Z total_rows)%Q;
        cp_distinctCount := distinct;
        cp_sampleValues := series_sample series 5;
        cp_stats := stats;
        cp_topValues :=
          match role with
          | RCategorical | RText | RBoolean => Some (top_value_counts series 5)
          | _ => None
          end |}.

(** The columns of a frame in order, each with its name ([frame[column]]
    for [column in frame.columns]; the names of a frame are distinct). *)
Definition frame_columns (df : DataFrame) : list (string * Series) :=
  map (fun p => (snd p, column_at df (fst p)))
      (combine (seq 0 (length (columns df))) (columns df)).

(** [profile_dataframe] *)
Definition profile_dataframe (df : DataFrame) : Result Profile :=
  let frame := convert_dtypes df in
  let total_rows := Z.of_nat (nrows frame) in
  cols <- mapM (fun p => profile_column total_rows (fst p) (snd p))
               (frame_columns frame) ;;
  Ok {| rowCount := total_rows;
        columnCount := Z.of_nat (length (columns frame));
        profile_columns := cols;
        memoryUsageBytes := memory_usage frame |}.

(** ** Charts ([schemas.py], [charts.py]) *)

(** [ChartType] has three members; [UNSUPPORTED] stands for any other
    object found in the field, which Python does not exclude and the last
    line of [build_chart_response] answers. *)
Inductive ChartType : Type :=
| BAR
| SCATTER
| HISTOGRAM
| UNSUPPORTED (name : string).

Inductive Aggregation : Type :=
| COUNT
| SUM
| AVG.

Record ChartConfig : Type := mkChartConfig {
  chart_type : ChartType;
  cfg_x : string;
  cfg_y : option string;
  cfg_color : option string;
  bin_count : option Z;
  aggregation : Aggregation
}.

(** [if config.color:] holds for a string that is present and not empty. *)
Definition truthy (o : option string) : option string :=
  match o with
  | Some s => if String.eqb s EmptyString then None else Some s
  | None => None
  end.

(** [working.dropna(subset=...)] *)
Definition dropna_subset (subset : list string) (w : list WRow) : list WRow :=
  filter (fun r => forallb (fun k => notna (get k r)) subset) w.

(** [pd.to_numeric(series, errors="coerce")] on one cell of a column of
    dtype [d]: numbers are kept, strings are parsed, a datetime column is
    read as its integer nanosecond counts (the missing instant being the
    least 64-bit integer). *)
Definition to_numeric_cell (d : Dtype) (c : Cell) : PyFloat :=
  match c with
  | CNull =>
      if is_datetime64_any_dtype d
      then FVal (inject_Z (-9223372036854775808))
      else FNaN
  | CBool b => FVal (if b then 1%Q else 0%Q)
  | CInt z => FVal (inject_Z z)
  | CFloat q => FVal q
  | CStr s => to_numeric_str s
  | CTime t => FVal (inject_Z t)
  end.

Definition to_numeric (s : Series) : list PyFloat :=
  map (to_numeric_cell (dtype s)) (values s).

(** *** Grouping *)

(** The order in which a grouping sorts its keys: numbers by value, then
    instants, then strings, the missing key last. *)
Definition cell_rank (c : Cell) : nat :=
  match c with
  | CBool _ | CInt _ | CFloat _ => 0
  | CTime _ => 1
  | CStr _ => 2
  | CNull => 3
  end%nat.

Definition cell_leb (a b : Cell) : bool :=
  match a, b with
  | CStr s, CStr t => String.leb s t
  | CTime s, CTime t => Z.leb s t
  | CNull, CNull => true
  | _, _ =>
      match num_of a, num_of b with
      | Some p, Some q => Qle_bool p q
      | _, _ => Nat.leb (cell_rank a) (cell_rank b)
      end
  end.

(** Two cells name the same group. *)
Definition cell_same (a b : Cell) : bool :=
  match a, b with
  | CNull, CNull => true
  | _, _ => py_eq a b
  end.

Fixpoint key_same (k1 k2 : list Cell) : bool :=
  match k1, k2 with
  | [], [] => true
  | a :: r1, b :: r2 => cell_same a b && key_same r1 r2
  | _, _ => false
  end.

(** Lexicographic order on keys. *)
Fixpoint key_leb (k1 k2 : list Cell) : bool :=
  match k1, k2 with
  | [], _ => true
  | _ :: _, [] => false
  | a :: r1, b :: r2 =>
      if cell_same a b then key_leb r1 r2 else cell_leb a b
  end.

Fixpoint unique_keys (l : list (list Cell)) : list (list Cell) :=
  match l with
  | [] => []
  | k :: rest => k :: filter (fun k' => negb (key_same k' k)) (unique_keys rest)
  end.

Fixpoint insert_key (k : list Cell) (l : list (list Cell)) : list (list Cell) :=
  match l with
  | [] => [k]
  | h :: rest => if key_leb k h then k :: l else h :: insert_key k rest
  end.

Definition sort_keys (l : list (list Cell)) : list (list Cell) :=
  fold_right insert_key [] l.

Definition key_of (group_keys : list string) (r : WRow) : list Cell :=
  map (fun k => get k r) group_keys.

(** [working.groupby(group_keys, dropna=False)]: the groups in ascending
    order of key, each with its rows in their original order. *)
Definition groupby (group_keys : list string) (w : list WRow)
  : list (list Cell * list WRow) :=
  map (fun k => (k, filter (fun r => key_same (key_of group_keys r) k) w))
      (sort_keys (unique_keys (map (key_of group_keys) w))).

Fixpoint has_dup (l : list string) : bool :=
  match l with
  | [] => false
  | k :: rest => string_in k rest || has_dup rest
  end.

(** [.reset_index(name="value")] turns every key into a column next to
    the column [value], and refuses a name that is already taken. *)
Definition reset_index {A : Type} (group_keys : list string)
  (grouped : list (list Cell * A)) : Result (list (list Cell * A)) :=
  if string_in "value" group_keys || has_dup group_keys
  then Raise (ValueError "cannot insert, already exists")
  else Ok grouped.

Record BarRecord : Type := mkBarRecord {
  bar_category : Cell;
  bar_value : option Q;
  bar_color : option Cell
}.

Definition numbers_of (name : string) (w : list WRow) : list Q :=
  flat_map (fun r => match num_of (get name r) with
                     | Some q => [q]
                     | None => []
                     end) w.

(** [_bar_chart].  The rows of [grouped] are read back in order; a key
    is emitted as the cell the group was formed on (where [iterrows]
    widens an integer key to the float of the same value, the value is
    the same). *)
Definition _bar_chart (df : DataFrame) (config : ChartConfig) : Result (list BarRecord) :=
  _ <- ensure_column_exists df (cfg_x config) ;;
  group_keys <- match truthy (cfg_color config) with
                | Some c =>
                    _ <- ensure_column_exists df c ;;
                    Ok [cfg_x config; c]
                | None => Ok [cfg_x config]
                end ;;
  let working := dropna_subset [cfg_x config] (records df) in
  grouped <-
    match aggregation config with
    | COUNT =>
        reset_index group_keys
          (map (fun g => (fst g, inject_Z (Z.of_nat (length (snd g)))))
               (groupby group_keys working))
    | agg =>
        match cfg_y config with
        | None => Raise (ValueError "Bar charts with sum/avg require `y` column.")
        | Some yc =>
            sy <- ensure_column_exists df yc ;;
            let numeric_y :=
              map (fun r => cell_of_float (to_numeric_cell (dtype sy) (get yc r)))
                  working in
            let working := dropna_subset [yc] (set_col yc numeric_y working) in
            reset_index group_keys
              (map (fun g =>
                      (fst g,
                       match agg with
                       | SUM => sum_Q (numbers_of yc (snd g))
                       | _ => mean_Q (numbers_of yc (snd g))
                       end))
                   (groupby group_keys working))
        end
    end ;;
  Ok (map (fun g =>
             {| bar_category := to_python_value (nth 0 (fst g) CNull);
                bar_value := Some (snd g);
                bar_color :=
                  match truthy (cfg_color config) with
                  | Some _ => Some (to_python_value (nth 1 (fst g) CNull))
                  | None => None
                  end |})
          grouped).

(** *** Scatter *)

(** Python [<] between two present values: numbers with numbers, strings
    with strings, instants with instants; anything else raises. *)
Definition py_lt (a b : Cell) : Result bool :=
  match a, b with
  | CStr s, CStr t => Ok (String.ltb s t)
  | CTime s, CTime t => Ok (Z.ltb s t)
  | _, _ =>
      match num_of a, num_of b with
      | Some p, Some q => Ok (negb (Qle_bool q p))
      | _, _ => Raise (TypeError "'<' not supported")
      end
  end.

Fixpoint insert_row (by_ : string) (r : WRow) (l : list WRow) : Result (list WRow) :=
  match l with
  | [] => Ok [r]
  | h :: rest =>
      lt <- py_lt (get by_ h) (get by_ r) ;;
      if lt
      then (t <- insert_row by_ r rest ;; Ok (h :: t))
      else Ok (r :: l)
  end.

(** [working.sort_values(by=...)]: ascending; it raises when two values
    of the column cannot be ordered.  Rows with equal values keep their
    order here; pandas leaves their order open, and nothing below depends
    on it. *)
Fixpoint sort_values (by_ : string) (w : list WRow) : Result (list WRow) :=
  match w with
  | [] => Ok []
  | r :: rest =>
      sorted <- sort_values by_ rest ;;
      insert_row by_ r sorted
  end.

Record PointRecord : Type := mkPointRecord {
  pt_x : PyFloat;
  pt_y : PyFloat;
  pt_color : option Cell
}.

(** [float(row[name])] *)
Definition float_field (name : string) (row : WRow) : Result PyFloat :=
  match float_of_cell (get name row) with
  | Some f => Ok f
  | None => Raise (ValueError "could not convert to float")
  end.

(** [_scatter_points] *)
Definition _scatter_points (df : DataFrame) (config : ChartConfig) (limit : nat)
  : Result (list PointRecord) :=
  match cfg_y config with
  | None => Raise (ValueError "Scatter charts require `y` column.")
  | Some yc =>
      sx <- ensure_column_exists df (cfg_x config) ;;
      sy <- ensure_column_exists df yc ;;
      let series_x := map cell_of_float (to_numeric sx) in
      let series_y := map cell_of_float (to_numeric sy) in
      let working :=
        set_col yc series_y
          (set_col (cfg_x config) series_x (repeat [] (nrows df))) in
      let working_columns := [cfg_x config; yc] in
      let colored :=
        match truthy (cfg_color config) with
        | Some c =>
            match get_column df c with
            | Some sc => (set_col c (values sc) working, working_columns ++ [c])
            | None => (working, working_columns)
            end
        | None => (working, working_columns)
        end in
      let working := dropna_subset [cfg_x config; yc] (fst colored) in
      let working := firstn limit working in
      working <- sort_values (cfg_x config) working ;;
      mapM (fun row =>
              px <- float_field (cfg_x config) row ;;
              py <- float_field yc row ;;
              Ok {| pt_x := px;
                    pt_y := py;
                    pt_color :=
                      match truthy (cfg_color config) with
                      | Some c =>
                          if string_in c (snd colored)
                          then Some (to_python_value (get c row))
                          else None
                      | None => None
                      end |})
           working
  end.

(** *** Histogram *)

Record BinRecord : Type := mkBinRecord {
  binStart : Q;
  binEnd : Q;
  bin_total : Z
}.

Definition floats_present (l : list PyFloat) : list Q :=
  flat_map (fun f => match f with FVal q => [q] | FNaN => [] end) l.

(** The outer edges numpy gives a histogram: the least and greatest value,
    moved half a unit apart when they coincide. *)
Definition outer_edges (x : Q) (rest : list Q) : Q * Q :=
  let lo := min_Q x rest in
  let hi := max_Q x rest in
  if Qeq_bool lo hi then (lo - (1 # 2), hi + (1 # 2))%Q else (lo, hi).

(** [np.linspace(first, last, n + 1)[i]] *)
Definition bin_edge (first last : Q) (n : Z) (i : Z) : Q :=
  (first + inject_Z i * ((last - first) / inject_Z n))%Q.

(** The bin numpy assigns to a value: the integer part of its relative
    position scaled by the number of bins, the position [n] of the
    greatest value being moved into the last bin. *)
Definition bin_index (first last : Q) (n : Z) (v : Q) : Z :=
  let i := Qfloor ((v - first) / (last - first) * inject_Z n) in
  if i =? n then i - 1 else i.

(** [np.bincount(indices, minlength=n)[i]] *)
Definition count_index (indices : list Z) (i : Z) : Z :=
  Z.of_nat (length (filter (Z.eqb i) indices)).

(** [np.histogram(a, bins=n)] for a non-empty [a] and an integer [n]:
    the counts and the edges. *)
Definition np_histogram (x : Q) (rest : list Q) (n : Z) : Result (list Z * list Q) :=
  if n <? 1 then Raise (ValueError "`bins` must be positive, when an integer")
  else
    let (first, last) := outer_edges x rest in
    let indices := map (bin_index first last n) (x :: rest) in
    let positions := map Z.of_nat (seq 0 (Z.to_nat n)) in
    Ok (map (count_index indices) positions,
        map (fun i => bin_edge first last n (Z.of_nat i)) (seq 0 (S (Z.to_nat n)))).

(** [_histogram_bins] *)
Definition _histogram_bins (df : DataFrame) (config : ChartConfig) : Result (list BinRecord) :=
  series <- ensure_column_exists df (cfg_x config) ;;
  match floats_present (to_numeric series) with
  | [] => Ok []
  | x :: rest =>
      let bins :=
        match bin_count config with
        | Some b => if b =? 0 then 10 else b
        | None => 10
        end in
      h <- np_histogram x rest bins ;;
      let counts := fst h in
      let bin_edges := snd h in
      Ok (map (fun idx =>
                 {| binStart := nth idx bin_edges 0%Q;
                    binEnd := nth (S idx) bin_edges 0%Q;
                    bin_total := nth idx counts 0 |})
              (seq 0 (length counts)))
  end.

(** *** Responses *)











(** ** The dataset store ([store.py])

    The registry is a Python dictionary: bindings in insertion order,
    an assignment under a key already present replacing its value in
    place.  The identifier drawn by [uuid4] and the instant read by
    [datetime.now] are arguments of the operations; the lock only
    serialises them and is not modelled. *)

Record DatasetRecord : Type := mkDatasetRecord {
  record_dataset_id : string;
  record_name : string;
  record_filename : option string;
  created_at : Z;
  updated_at : Z;
  record_dataframe : DataFrame;
  record_profile : Profile;
  row_count : Z;
  column_count : Z
}.

(** [DatasetStore._datasets] *)
Definition DatasetStore : Type := list (string * DatasetRecord).

(** [DatasetStore.__init__]: no dataset. *)
Definition new_store : DatasetStore := [].

(** [dict.get(key)] *)
Fixpoint dict_get (key : string) (d : DatasetStore) : option DatasetRecord :=
  match d with
  | [] => None
  | (k, v) :: rest => if String.eqb key k then Some v else dict_get key rest
  end.

(** [d[key] = value] *)
Fixpoint dict_set (key : string) (value : DatasetRecord) (d : DatasetStore)
  : DatasetStore :=
  match d with
  | [] => [(key, value)]
  | (k, v) :: rest =>
      if String.eqb key k then (k, value) :: rest
      else (k, v) :: dict_set key value rest
  end.

(** [dataframe.shape[1]] *)
Definition ncols (df : DataFrame) : nat := length (columns df).

(** [DatasetStore.create]: the record built and the store after it. *)
Definition create (store : DatasetStore) (dataset_id : string) (now : Z)
  (name : string) (filename : option string) (dataframe : DataFrame)
  (profile : Profile) : DatasetRecord * DatasetStore :=
  let record :=
    {| record_dataset_id := dataset_id;
       record_name := name;
       record_filename := filename;
       created_at := now;
       updated_at := now;
       record_dataframe := dataframe;
       record_profile := profile;
       row_count := Z.of_nat (nrows dataframe);
       column_count := Z.of_nat (ncols dataframe) |} in
  (record, dict_set dataset_id record store).

(** [DatasetStore.get] *)
Definition store_get (store : DatasetStore) (dataset_id : string) : Result DatasetRecord :=
  match dict_get dataset_id store with
  | None => Raise (KeyError dataset_id)
  | Some record => Ok record
  end.

(** [DatasetStore.update_profile]: the store after it. *)
Definition update_profile (store : DatasetStore) (dataset_id : string)
  (profile : Profile) (now : Z) : Result DatasetStore :=
  match dict_get dataset_id store with
  | None => Raise (KeyError dataset_id)
  | Some record =>
      Ok (dict_set dataset_id
            {| record_dataset_id := record_dataset_id record;
               record_name := record_name record;
               record_filename := record_filename record;
               created_at := created_at record;
               updated_at := now;
               record_dataframe := record_dataframe record;
               record_profile := profile;
               row_count := Z.of_nat (nrows (record_dataframe record));
               column_count := Z.of_nat (ncols (record_dataframe record)) |}
            store)
  end.

(** Insertion into a list kept in descending order of [updated_at]; a
    record goes before the records updated at the same instant, so that
    equal records keep the order they had, as Python's stable sort with
    [reverse=True] leaves them. *)
Fixpoint insert_recent (r : DatasetRecord) (l : list DatasetRecord) : list DatasetRecord :=
  match l with
  | [] => [r]
  | h :: rest =>
      if updated_at r <? updated_at h then h :: insert_recent r rest else r :: l
  end.

(** [records.sort(key=lambda rec: rec.updated_at, reverse=True)] *)
Definition sort_recent (l : list DatasetRecord) : list DatasetRecord :=
  fold_right insert_recent [] l.

(** [DatasetStore.list_recent] *)
Definition list_recent (store : DatasetStore) (limit : Z) : list DatasetRecord :=
  let records := map snd store in
  py_slice (sort_recent records) 0 limit.

(** [DatasetStore.clear] *)
Definition clear (store : DatasetStore) : DatasetStore := [].

(** ** Reference instances and tables

    The instances below stand for the library routines in the concrete
    evaluations, and the tables are their inputs. *)

(** No literal parses as a date. *)
Definition no_datetime (value : Cell) : option Cell := Some CNull.

Definition plain_isoformat (t : Z) : string := "1970-01-01T00:00:00".

(** The integer square root, exact on the squares the evaluations meet. *)
Definition whole_sqrt (q : Q) : Q := inject_Z (Z.sqrt (Qfloor q)).

Definition no_memory_usage (df : DataFrame) : Z := 0.

(** One integer column holding one to ten. *)
Definition one_to_ten : DataFrame :=
  {| columns := ["v"]; dtypes := [DInt];
     rows := map (fun z => [CInt z]) [1; 2; 3; 4; 5; 6; 7; 8; 9; 10] |}.


(** The rows [a], [a], [b] of the specification's bar chart. *)
Definition three_letters : DataFrame :=
  {| columns := ["cat"]; dtypes := [DObject];
     rows := [[CStr "a"]; [CStr "a"]; [CStr "b"]] |}.

(** One integer column holding the single value five. *)
Definition single_five : DataFrame :=
  {| columns := ["v"]; dtypes := [DInt]; rows := [[CInt 5]] |}.

(** A float column with a missing cell. *)
Definition one_gap_three : DataFrame :=
  {| columns := ["v"]; dtypes := [DFloat];
     rows := [[CFloat 1]; [CNull]; [CFloat 3]] |}.

(** Two integer columns. *)
Definition two_points : DataFrame :=
  {| columns := ["x"; "y"]; dtypes := [DInt; DInt];
     rows := [[CInt 2; CInt 3]; [CInt 1; CInt 4]] |}.

(** What reading the text
    [x,y / 10,1 / 9,2 / abc,] gives: a column of strings and a column of
    floats whose last cell is missing. *)
Definition strings_and_floats : DataFrame :=
  {| columns := ["x"; "y"]; dtypes := [DObject; DFloat];
     rows := [[CStr "10"; CFloat 1]; [CStr "9"; CFloat 2]; [CStr "abc"; CNull]] |}.


Definition scatter_of_xy (colour : option string) : ChartConfig :=
  {| chart_type := SCATTER; cfg_x := "x"; cfg_y := Some "y"; cfg_color := colour;
     bin_count := Some 10; aggregation := COUNT |}.


(** A boolean column, a text column with a missing cell and a float
    column with a missing cell. *)
Definition flagged_sales : DataFrame :=
  {| columns := ["flag"; "city"; "amount"]; dtypes := [DBool; DObject; DFloat];
     rows := [ [CBool true; CStr "Oslo"; CFloat 10];
               [CBool false; CStr "Rome"; CFloat 5];
               [CBool true; CStr "Oslo"; CFloat 7];
               [CBool false; CNull; CFloat 100];
               [CBool true; CStr "Rome"; CNull] ] |}.


Definition bar_count_by_city : ChartConfig :=
  {| chart_type := BAR; cfg_x := "city"; cfg_y := None; cfg_color := Some "flag";
     bin_count := None; aggregation := COUNT |}.

Definition blank_profile : Profile :=
  {| rowCount := 0; columnCount := 0; profile_columns := []; memoryUsageBytes := 0 |}.

(** A registry after two uploads, the second one instant after the
    first. *)
Definition two_datasets : DatasetStore :=
  snd (create (snd (create new_store "a" 1 "first" None one_to_ten blank_profile))
              "b" 2 "second" (Some "b.csv") three_letters blank_profile).

(** * Vocabulary of the properties *)

(** [m1] selects no row that [m2] does not select. *)
Definition submask (m1 m2 : list bool) : Prop :=
  forall i, nth i m1 false = true -> nth i m2 false = true.

(** The column a filter names is a column of the table. *)
Definition column_present (df : DataFrame) (f : Filter) : bool :=
  has_column df (filter_column f).

(** The cell of a row under a column name. *)
Definition row_cell (df : DataFrame) (column : string) (row : list Cell) : Cell :=
  match index_of column (columns df) with
  | Some j => cell_at j row
  | None => CNull
  end.

(** The rows an Equals filter keeps, given the coerced literal. *)
Definition equals_keeps (df : DataFrame) (column : string) (value : Cell)
  (row : list Cell) : bool :=
  if isna value then isna (row_cell df column row)
  else py_eq (row_cell df column row) value.




(** A float reading of each present cell. *)
Definition float_reading (c : Cell) (q : Q) : Prop :=
  float_of_cell c = Some (FVal q).







(** The number of bins a configuration asks for. *)
Definition bins_requested (config : ChartConfig) : Z :=
  match bin_count config with
  | Some b => if b =? 0 then 10 else b
  | None => 10
  end.

(** The bin positions [0] to [n - 1]. *)
Definition positions (n : Z) : list Z := map Z.of_nat (seq 0 (Z.to_nat n)).


(** The floating reading of a cell of a working frame. *)
Definition to_float (c : Cell) : PyFloat :=
  match float_of_cell c with
  | Some f => f
  | None => FNaN
  end.

(** A cell that holds a float. *)
Definition is_float_cell (c : Cell) : Prop := exists q, c = CFloat q.

(** The float a row holds under a name. *)
Definition x_of (name : string) (r : WRow) : Q :=
  match get name r with
  | CFloat q => q
  | _ => 0%Q
  end.

(** The pairs of numbers a scatter chart is drawn from: the rows whose
    [x] and [y] both have a numeric reading, in row order. *)
Definition numeric_pairs (fx fy : list PyFloat) : list (Q * Q) :=
  flat_map (fun p => match p with
                     | (FVal a, FVal b) => [(a, b)]
                     | _ => []
                     end) (combine fx fy).

(** The coordinates of a point. *)
Definition point_xy (p : PointRecord) : PyFloat * PyFloat := (pt_x p, pt_y p).

(** A pair of numbers as a pair of floats. *)
Definition pair_floats (p : Q * Q) : PyFloat * PyFloat := (FVal (fst p), FVal (snd p)).

(** The order of two floats that are numbers. *)
Definition float_le (a b : PyFloat) : Prop :=
  match a, b with
  | FVal p, FVal q => (p <= q)%Q
  | _, _ => False
  end.

(** The coordinates a row of a working frame holds. *)
Definition row_floats (kx ky : string) (r : WRow) : PyFloat * PyFloat :=
  (to_float (get kx r), to_float (get ky r)).

(** The record [update_profile] leaves under an identifier. *)
Definition with_profile (record : DatasetRecord) (profile : Profile) (now : Z)
  : DatasetRecord :=
  {| record_dataset_id := record_dataset_id record;
     record_name := record_name record;
     record_filename := record_filename record;
     created_at := created_at record;
     updated_at := now;
     record_dataframe := record_dataframe record;
     record_profile := profile;
     row_count := Z.of_nat (nrows (record_dataframe record));
     column_count := Z.of_nat (ncols (record_dataframe record)) |}.

(** A record is filed under its own identifier and its counts are the
    shape of its table. *)
Definition record_ok (binding : string * DatasetRecord) : Prop :=
  record_dataset_id (snd binding) = fst binding /\
  row_count (snd binding) = Z.of_nat (nrows (record_dataframe (snd binding))) /\
  column_count (snd binding) = Z.of_nat (ncols (record_dataframe (snd binding))).

(** The invariant of the registry: one binding per identifier, each a
    well-formed record. *)
Definition store_ok (store : DatasetStore) : Prop :=
  NoDup (map fst store) /\ Forall record_ok store.

(** [a] was updated no earlier than [b]. *)
Definition newer_or_equal (a b : DatasetRecord) : Prop :=
  updated_at b <= updated_at a.

(** The number a cell holds, a missing cell holding none. *)
Definition present_number (c : Cell) : option Q :=
  if isna c then None else num_of c.

(** A cell lies between two optional inclusive bounds; a bound that is
    given excludes the cells without a number. *)
Definition in_range (lo hi : option Q) (c : Cell) : bool :=
  match lo with
  | None => true
  | Some a => match present_number c with
              | Some q => Qle_bool a q
              | None => false
              end
  end &&
  match hi with
  | None => true
  | Some b => match present_number c with
              | Some q => Qle_bool q b
              | None => false
              end
  end.

(** A cell of a numeric column: missing or a number. *)
Definition numeric_cell (c : Cell) : Prop :=
  isna c = true \/ exists q, num_of c = Some q.

(** An entry of a frequency table counts at least as much as another. *)
Definition at_least_as_frequent (a b : Cell * Z) : Prop := snd b <= snd a.

(** The frequency table of a column: each distinct present value with the
    number of present cells equal to it. *)
Definition frequency_table (s : Series) : list (Cell * Z) :=
  map (fun v => (v, count_of v (dropna (values s)))) (unique (dropna (values s))).



(** Keys that name pairwise different groups. *)
Definition distinct_groups (K : list (list Cell)) : Prop :=
  ForallOrdPairs (fun k k' => key_same k' k = false) K.

(** * Properties

    ** Masks and selection *)

Lemma nth_and_mask (m o : list bool) (i : nat) :
  nth i (and_mask m o) false = nth i m false && nth i o false.
Proof.
  unfold and_mask. revert o i.
  induction m as [|a m IH]; intros [|b o] [|i]; simpl; try reflexivity.
  - now rewrite andb_false_r.
  - now rewrite andb_false_r.
  - apply IH.
Qed.

Lemma submask_refl m : submask m m.
Proof. intros i H; exact H. Qed.

Lemma submask_trans m1 m2 m3 : submask m1 m2 -> submask m2 m3 -> submask m1 m3.
Proof. intros H1 H2 i H. apply H2, H1, H. Qed.

Lemma submask_and_mask m o : submask (and_mask m o) m.
Proof.
  intros i H. rewrite nth_and_mask in H. now apply andb_true_iff in H.
Qed.

Lemma select_cons {A} (a : A) l b m :
  select (a :: l) (b :: m) = if b then a :: select l m else select l m.
Proof. unfold select. simpl. now destruct b. Qed.

Lemma select_length_le {A} (l : list A) m : (length (select l m) <= length l)%nat.
Proof.
  revert m. induction l as [|a l IH]; intros [|b m]; simpl; try lia.
  rewrite select_cons. specialize (IH m). destruct b; simpl; lia.
Qed.

Lemma select_submask {A} (l : list A) m1 m2 :
  submask m1 m2 -> (length (select l m1) <= length (select l m2))%nat.
Proof.
  revert m1 m2. induction l as [|a l IH]; intros m1 m2 H.
  - simpl. lia.
  - destruct m1 as [|b1 m1].
    + unfold select at 1. simpl. lia.
    + destruct m2 as [|b2 m2].
      * assert (Hb : b1 = false).
        { destruct b1; [|reflexivity]. specialize (H O eq_refl). discriminate. }
        subst b1. rewrite select_cons.
        assert (Hn : forall i, nth i m1 false = false).
        { intros i. destruct (nth i m1 false) eqn:E; [|reflexivity].
          specialize (H (S i) E). simpl in H. destruct i; discriminate. }
        assert (Hs : select l m1 = []).
        { clear -Hn. revert m1 Hn. induction l as [|x l IHl]; intros [|b m] Hn; try reflexivity.
          rewrite select_cons. rewrite (Hn O : b = false).
          apply IHl. intros i. apply (Hn (S i)). }
        rewrite Hs. simpl. lia.
      * rewrite !select_cons.
        assert (Ht : submask m1 m2) by (intros i Hi; apply (H (S i) Hi)).
        specialize (IH _ _ Ht).
        destruct b1.
        -- rewrite (H O eq_refl : b2 = true). simpl. lia.
        -- destruct b2; simpl; lia.
Qed.

Lemma filter_step_submask df mask f m :
  filter_step df mask f = Ok m -> submask m mask.
Proof.
  unfold filter_step.
  destruct (ensure_column_exists df (filter_column f)) as [e|s].
  - destruct e; intros H; inversion H; subst; apply submask_refl.
  - destruct f as [c v|c lo hi].
    + destruct (isna _); intros H; inversion H; apply submask_and_mask.
    + destruct lo as [v|]; simpl.
      * destruct (series_cmp GE s _) as [e|m1]; simpl; [discriminate|].
        destruct hi as [w|]; simpl.
        -- destruct (series_cmp LE s _) as [e|m2]; simpl; [discriminate|].
           intros H; inversion H.
           eapply submask_trans; apply submask_and_mask.
        -- intros H; inversion H. apply submask_and_mask.
      * destruct hi as [w|]; simpl.
        -- destruct (series_cmp LE s _) as [e|m2]; simpl; [discriminate|].
           intros H; inversion H. apply submask_and_mask.
        -- intros H; inversion H. apply submask_refl.
Qed.

Lemma filter_loop_submask df fs mask m :
  filter_loop df fs mask = Ok m -> submask m mask.
Proof.
  revert mask. induction fs as [|f fs IH]; intros mask H; simpl in H.
  - inversion H. apply submask_refl.
  - destruct (filter_step df mask f) as [e|m1] eqn:E; simpl in H; [discriminate|].
    eapply submask_trans; [apply IH, H|]. eapply filter_step_submask, E.
Qed.

Lemma filter_loop_app df fs gs mask :
  filter_loop df (fs ++ gs) mask =
  (m <- filter_loop df fs mask ;; filter_loop df gs m).
Proof.
  revert mask. induction fs as [|f fs IH]; intros mask; simpl.
  - reflexivity.
  - destruct (filter_step df mask f) as [e|m1]; simpl; [reflexivity|apply IH].
Qed.

(** ** The filter engine *)

(** C6: filtering never adds rows.  Whenever [apply_filters] returns, its
    result has at most as many rows as the table; and whenever it returns
    for a filter list extended by one more filter, it also returns for the
    shorter list, with at least as many rows. *)
Theorem apply_filters_monotonic (df : DataFrame) (fs : list Filter) (f : Filter) :
  (forall r, apply_filters df fs = Ok r -> (nrows r <= nrows df)%nat) /\
  (forall r', apply_filters df (fs ++ [f]) = Ok r' ->
     exists r, apply_filters df fs = Ok r /\ (nrows r' <= nrows r)%nat).
Proof.
  split.
  - intros r H. destruct fs as [|g fs].
    + inversion H. lia.
    + unfold apply_filters in H.
      destruct (filter_loop df (g :: fs) _) as [e|m]; simpl in H; [discriminate|].
      inversion H. unfold nrows, df_mask. simpl. apply select_length_le.
  - intros r' H.
    assert (Hne : fs ++ [f] <> []) by (destruct fs; discriminate).
    unfold apply_filters in H.
    destruct (fs ++ [f]) as [|g gs] eqn:Eapp; [contradiction|].
    rewrite <- Eapp in H. rewrite filter_loop_app in H.
    destruct (filter_loop df fs _) as [e|m] eqn:El; simpl in H; [discriminate|].
    destruct (filter_step df m f) as [e|m'] eqn:Es; simpl in H; [discriminate|].
    inversion H; subst r'.
    destruct fs as [|h fs].
    + exists df. split; [reflexivity|]. unfold nrows, df_mask; simpl. apply select_length_le.
    + exists (df_mask df m). split.
      * unfold apply_filters. rewrite El. reflexivity.
      * unfold nrows, df_mask; simpl. apply select_submask.
        eapply filter_step_submask, Es.
Qed.

(** An Equals filter never raises, so a list of Equals filters is always
    applied. *)
Lemma apply_filters_equals_returns (df : DataFrame) (fs : list Filter) :
  Forall (fun f => exists c v, f = EqualsFilter c v) fs ->
  exists r, apply_filters df fs = Ok r.
Proof.
  intros H.
  assert (Hloop : forall mask, exists m, filter_loop df fs mask = Ok m).
  { induction H as [|f fs [c [v ->]] _ IH]; intros mask; simpl; [eauto|].
    unfold filter_step.
    destruct (ensure_column_exists df (filter_column (EqualsFilter c v))) as [e|s] eqn:E.
    - unfold ensure_column_exists in E. destruct (get_column df _); [discriminate|].
      inversion E; subst. simpl. apply IH.
    - destruct (isna _); simpl; apply IH. }
  unfold apply_filters. destruct fs as [|f fs]; [eauto|].
  destruct (Hloop (repeat true (nrows df))) as [m Hm]. rewrite Hm. simpl. eauto.
Qed.

Lemma select_all_true {A} (l : list A) : select l (repeat true (length l)) = l.
Proof.
  induction l as [|a l IH]; [reflexivity|].
  simpl repeat. rewrite select_cons. now rewrite IH.
Qed.

Lemma df_mask_all_true df : df_mask df (repeat true (nrows df)) = df.
Proof.
  unfold df_mask, nrows. rewrite select_all_true. now destruct df.
Qed.

Lemma select_and_true_map {A} (p : A -> bool) (l : list A) :
  select l (and_mask (repeat true (length l)) (map p l)) = filter p l.
Proof.
  induction l as [|a l IH]; [reflexivity|].
  simpl. unfold and_mask in *. simpl. rewrite select_cons, IH. reflexivity.
Qed.

Lemma ensure_absent df c :
  has_column df c = false -> ensure_column_exists df c = Raise (KeyError c).
Proof.
  unfold has_column, ensure_column_exists, get_column.
  destruct (index_of c (columns df)); [discriminate|reflexivity].
Qed.


Lemma filter_step_absent df mask f :
  has_column df (filter_column f) = false -> filter_step df mask f = Ok mask.
Proof.
  intros H. unfold filter_step. now rewrite (ensure_absent _ _ H).
Qed.

Lemma filter_loop_skips df fs mask :
  filter_loop df fs mask = filter_loop df (filter (column_present df) fs) mask.
Proof.
  revert mask. induction fs as [|f fs IH]; intros mask; [reflexivity|].
  simpl. unfold column_present at 1.
  destruct (has_column df (filter_column f)) eqn:E.
  - simpl. destruct (filter_step df mask f); simpl; [reflexivity|apply IH].
  - rewrite (filter_step_absent _ _ _ E). simpl. apply IH.
Qed.

(** C8: a filter on a column the table lacks is skipped.  Applying a
    filter list gives what applying only the filters on existing columns
    gives, and a list made only of filters on absent columns returns the
    table itself. *)
Theorem apply_filters_skips_absent (df : DataFrame) (fs : list Filter) :
  apply_filters df fs = apply_filters df (filter (column_present df) fs) /\
  (forallb (fun f => negb (column_present df f)) fs = true ->
   apply_filters df fs = Ok df).
Proof.
  assert (Hall : forall gs, filter (column_present df) gs = [] ->
                            apply_filters df gs = Ok df).
  { intros gs Hnil. destruct gs as [|g gs]; [reflexivity|].
    unfold apply_filters. rewrite filter_loop_skips, Hnil. simpl.
    now rewrite df_mask_all_true. }
  split.
  - destruct (filter (column_present df) fs) as [|g gs] eqn:E.
    + now rewrite (Hall fs E).
    + destruct fs as [|f fs]; [discriminate|].
      unfold apply_filters. rewrite filter_loop_skips, E. reflexivity.
  - intros H. apply Hall. induction fs as [|f fs IH]; [reflexivity|].
    simpl in H. apply andb_true_iff in H. destruct H as [Hf Hr].
    simpl. apply negb_true_iff in Hf. rewrite Hf. now apply IH.
Qed.

Lemma get_column_values df c s :
  get_column df c = Some s ->
  values s = map (row_cell df c) (rows df) /\ length (values s) = nrows df.
Proof.
  unfold get_column, row_cell. destruct (index_of c (columns df)) as [j|]; [|discriminate].
  simpl. intros H. inversion H. simpl. split; [reflexivity|]. unfold nrows. now rewrite length_map.
Qed.

(** C7: a single Equals filter on a present column returns exactly the
    rows whose cell is missing when the coerced literal is missing, and
    exactly the rows whose cell equals the coerced literal otherwise; a
    missing literal, and a blank string against a numeric column, are
    coerced to a missing value. *)
Theorem equals_filter_selects (df : DataFrame) (column : string) (v : Cell) (s : Series) :
  get_column df column = Some s ->
  let value := coerce_value_for_series s v in
  apply_filters df [EqualsFilter column v] =
    Ok {| columns := columns df; dtypes := dtypes df;
          rows := filter (equals_keeps df column value) (rows df) |} /\
  (isna value = true ->
   filter (equals_keeps df column value) (rows df)
   = filter (fun row => isna (row_cell df column row)) (rows df)) /\
  (isna value = false ->
   filter (equals_keeps df column value) (rows df)
   = filter (fun row => py_eq (row_cell df column row) value) (rows df)) /\
  (isna v = true -> isna value = true) /\
  (forall w, v = CStr w -> strip w = EmptyString ->
             is_numeric_dtype (dtype s) = true -> isna value = true).
Proof.
  intros Hs value.
  destruct (get_column_values _ _ _ Hs) as [Hv Hl].
  repeat split.
  - unfold apply_filters, filter_loop, filter_step, ensure_column_exists.
    simpl filter_column. rewrite Hs. fold value.
    unfold df_mask, nrows, equals_keeps.
    destruct (isna value) eqn:E; simpl; f_equal; f_equal.
    + unfold series_isna. rewrite Hv, map_map. apply select_and_true_map.
    + unfold series_eq. rewrite Hv, map_map.
      apply (select_and_true_map (fun row => py_eq (row_cell df column row) value)).
  - intros E. unfold equals_keeps. now rewrite E.
  - intros E. unfold equals_keeps. now rewrite E.
  - intros E. subst value. unfold coerce_value_for_series. now rewrite E.
  - intros w -> Hw Hn. subst value. unfold coerce_value_for_series.
    simpl isna. cbv iota. rewrite Hn, Hw. reflexivity.
Qed.

(** ** Preview *)



(** ** Equality of present cells *)

Lemma py_eq_refl (a : Cell) : notna a = true -> py_eq a a = true.
Proof.
  destruct a; simpl; intros H; try discriminate; try reflexivity.
  - destruct b; reflexivity.
  - apply Z.eqb_refl.
  - apply Qeq_bool_refl.
  - apply String.eqb_refl.
  - apply Z.eqb_refl.
Qed.


Lemma py_eq_trans (a b c : Cell) :
  py_eq a b = true -> py_eq b c = true -> py_eq a c = true.
Proof.
  destruct a, b; simpl; try discriminate; destruct c; simpl; try discriminate;
    try (intros H1 H2; exact (Qeq_bool_trans _ _ _ H1 H2)).
  - intros H1 H2. apply String.eqb_eq in H1, H2. subst. apply String.eqb_refl.
  - intros H1 H2. apply Z.eqb_eq in H1, H2. subst. apply Z.eqb_refl.
Qed.

Lemma py_eq_notna_l (a b : Cell) : py_eq a b = true -> notna a = true.
Proof. destruct a; simpl; [discriminate|reflexivity..]. Qed.

(** ** Frequency tables *)












Lemma insert_desc_perm (e : Cell * Z) (l : list (Cell * Z)) :
  Permutation (insert_desc e l) (e :: l).
Proof.
  induction l as [|h l IH]; simpl; [reflexivity|].
  destruct (snd h <? snd e); [reflexivity|].
  rewrite IH. apply perm_swap.
Qed.

Lemma sort_desc_perm (l : list (Cell * Z)) : Permutation (sort_desc l) l.
Proof.
  unfold sort_desc.
  assert (H : forall acc, Permutation (fold_left (fun acc e => insert_desc e acc) l acc)
                                      (acc ++ l)).
  { induction l as [|e l IH]; intros acc; simpl.
    - now rewrite app_nil_r.
    - rewrite IH, insert_desc_perm. apply Permutation_middle. }
  apply (H []).
Qed.



Lemma value_counts_length (s : Series) :
  length (value_counts s) = nunique s.
Proof.
  unfold value_counts, nunique.
  rewrite (Permutation_length (sort_desc_perm _)). apply length_map.
Qed.



Lemma firstn_In {A} (n : nat) (l : list A) (a : A) : In a (firstn n l) -> In a l.
Proof.
  revert l. induction n as [|n IH]; intros [|x l]; simpl; try tauto.
  intros [<-|H]; [now left|right; now apply IH].
Qed.

(** ** The profile engine *)

Lemma mapM_In {A B} (f : A -> Result B) (l : list A) (l' : list B) (b : B) :
  mapM f l = Ok l' -> In b l' -> exists a, In a l /\ f a = Ok b.
Proof.
  revert l'. induction l as [|a l IH]; intros l' H Hb; simpl in H.
  - inversion H; subst. destruct Hb.
  - destruct (f a) as [e|b0] eqn:Ea; simpl in H; [discriminate|].
    destruct (mapM f l) as [e|bs]; simpl in H; [discriminate|].
    inversion H; subst. destruct Hb as [<-|Hb].
    + exists a. split; [now left|exact Ea].
    + destruct (IH bs eq_refl Hb) as [a' [Ha' Hf]]. exists a'. split; [now right|exact Hf].
Qed.

Lemma frame_columns_In (df : DataFrame) (name : string) (s : Series) :
  In (name, s) (frame_columns df) -> length (values s) = nrows df.
Proof.
  unfold frame_columns. intros H. apply in_map_iff in H.
  destruct H as [[j n] [E _]]. inversion E; subst.
  unfold column_at, nrows. simpl. apply length_map.
Qed.

Lemma count_true_isna (l : list Cell) :
  count_true (map isna l) + Z.of_nat (length (dropna l)) = Z.of_nat (length l).
Proof.
  unfold count_true, dropna, notna.
  induction l as [|c l IH]; [reflexivity|].
  cbn [map filter]. destruct (isna c); cbn [negb length]; rewrite ?Nat2Z.inj_succ; lia.
Qed.

(** What the loop body of [profile_dataframe] records for a column. *)
Lemma profile_column_fields (total : Z) (name : string) (s : Series) (cp : ColumnProfile) :
  profile_column total name s = Ok cp ->
  cp_role cp = infer_role s /\
  cp_missingCount cp = count_true (series_isna s) /\
  cp_nonNullCount cp = total - count_true (series_isna s) /\
  cp_distinctCount cp = Z.of_nat (nunique s) /\
  cp_topValues cp = match infer_role s with
                    | RCategorical | RText | RBoolean => Some (top_value_counts s 5)
                    | _ => None
                    end /\
  match infer_role s with
  | RNumeric => exists st, _numeric_stats s = Ok st /\ cp_stats cp = Some (StatsNumeric st)
  | RDatetime => cp_stats cp = Some (_datetime_stats s)
  | _ => cp_stats cp = None
  end.
Proof.
  unfold profile_column. intros H.
  destruct (infer_role s) eqn:R; simpl in H.
  - inversion H; subst; simpl. rewrite ?R. repeat split.
  - destruct (_numeric_stats s) as [e|st] eqn:E; simpl in H; [discriminate|].
    inversion H; subst; simpl. rewrite ?R. repeat split. exists st. now split.
  - inversion H; subst; simpl. rewrite ?R. repeat split.
  - inversion H; subst; simpl. rewrite ?R. repeat split.
  - inversion H; subst; simpl. rewrite ?R. repeat split.
Qed.

(** Every column profile comes from a column of the converted frame. *)
Lemma profile_dataframe_columns (df : DataFrame) (p : Profile) (cp : ColumnProfile) :
  profile_dataframe df = Ok p -> In cp (profile_columns p) ->
  rowCount p = Z.of_nat (nrows (convert_dtypes df)) /\
  exists name s,
    In (name, s) (frame_columns (convert_dtypes df)) /\
    profile_column (rowCount p) name s = Ok cp.
Proof.
  unfold profile_dataframe. intros H Hin.
  destruct (mapM _ _) as [e|cols] eqn:E; simpl in H; [discriminate|].
  inversion H; subst; simpl in *. split; [reflexivity|].
  destruct (mapM_In _ _ _ _ E Hin) as [[name s] [Hs Hp]].
  exists name, s. split; assumption.
Qed.


Lemma Qle_bool_false (a b : Q) : Qle_bool a b = false -> (b <= a)%Q.
Proof.
  intros H. destruct (Qlt_le_dec b a) as [Hlt|Hle].
  - now apply Qlt_le_weak.
  - apply Qle_bool_iff in Hle. congruence.
Qed.



Lemma insert_Q_perm (x : Q) (l : list Q) : Permutation (insert_Q x l) (x :: l).
Proof.
  induction l as [|h l IH]; simpl; [reflexivity|].
  destruct (Qle_bool x h); [reflexivity|]. rewrite IH. apply perm_swap.
Qed.

Lemma insert_Q_sorted (x : Q) (l : list Q) :
  Sorted Qle l -> Sorted Qle (insert_Q x l).
Proof.
  induction 1 as [|h l Hs IH Hh]; simpl; [repeat constructor|].
  destruct (Qle_bool x h) eqn:E.
  - constructor; [now constructor|]. constructor. now apply Qle_bool_iff.
  - constructor; [exact IH|].
    destruct l as [|k l]; simpl.
    + constructor. now apply Qle_bool_false.
    + destruct (Qle_bool x k); constructor.
      * now apply Qle_bool_false.
      * now inversion Hh.
Qed.

(** The list [Series.median] reads is the data in ascending order. *)
Lemma sort_Q_sorted_perm (l : list Q) :
  Sorted Qle (sort_Q l) /\ Permutation (sort_Q l) l.
Proof.
  unfold sort_Q. induction l as [|x l [IHs IHp]]; simpl.
  - split; constructor.
  - split; [now apply insert_Q_sorted|].
    rewrite insert_Q_perm. now constructor.
Qed.

Lemma mapM_Forall2 {A B} (f : A -> Result B) (l : list A) (l' : list B) :
  mapM f l = Ok l' -> Forall2 (fun a b => f a = Ok b) l l'.
Proof.
  revert l'. induction l as [|a l IH]; intros l' H; simpl in H.
  - inversion H. constructor.
  - destruct (f a) as [e|b] eqn:Ea; simpl in H; [discriminate|].
    destruct (mapM f l) as [e|bs]; simpl in H; [discriminate|].
    inversion H; subst. constructor; [exact Ea|now apply IH].
Qed.




(** [_numeric_stats] returns on a column whose present cells all have a
    float reading, and then so does the profile. *)
Lemma astype_float64_returns (l : list Cell) :
  Forall (fun c => exists q, float_reading c q) l ->
  exists clean, astype_float64 l = Ok clean.
Proof.
  unfold astype_float64. induction 1 as [|c l [q Hq] _ [clean IH]]; simpl.
  - now exists [].
  - unfold float_reading in Hq. rewrite Hq. simpl. rewrite IH. simpl. now exists (q :: clean).
Qed.

Lemma mapM_returns {A B} (f : A -> Result B) (l : list A) :
  Forall (fun a => exists b, f a = Ok b) l -> exists l', mapM f l = Ok l'.
Proof.
  induction 1 as [|a l [b Hb] _ [l' IH]]; simpl.
  - now exists [].
  - rewrite Hb, IH. simpl. now exists (b :: l').
Qed.

Lemma profile_dataframe_returns (df : DataFrame) :
  (forall name s, In (name, s) (frame_columns (convert_dtypes df)) ->
                  infer_role s = RNumeric ->
                  Forall (fun c => exists q, float_reading c q) (dropna (values s))) ->
  exists p, profile_dataframe df = Ok p.
Proof.
  intros H. unfold profile_dataframe.
  destruct (mapM_returns
              (fun q => profile_column (Z.of_nat (nrows (convert_dtypes df))) (fst q) (snd q))
              (frame_columns (convert_dtypes df))) as [cols Hcols].
  - rewrite Forall_forall. intros [name s] Hs. simpl.
    unfold profile_column. destruct (infer_role s) eqn:R; simpl; eauto.
    destruct (astype_float64_returns _ (H name s Hs R)) as [clean Hclean].
    unfold _numeric_stats. rewrite Hclean. simpl.
    destruct clean; simpl; eauto.
  - rewrite Hcols. simpl. eauto.
Qed.

(** ** The chart engine: bar charts *)



Lemma cell_same_sym (a b : Cell) : cell_same a b = cell_same b a.
Proof.
  destruct a, b; simpl; try reflexivity;
    try apply Qeq_bool_comm; try apply String.eqb_sym; try apply Z.eqb_sym.
Qed.










Lemma reset_index_ok {A} (group_keys : list string) (g g' : list (list Cell * A)) :
  reset_index group_keys g = Ok g' -> g' = g.
Proof.
  unfold reset_index. destruct (_ || _); [discriminate|]. now inversion 1.
Qed.


(** ** The chart engine: failures *)


(** ** The chart engine: histograms *)


















(** A negative number of bins is refused by numpy. *)
Lemma histogram_negative_bins_raises (df : DataFrame) (cfg : ChartConfig) (s : Series)
  (x : Q) (rest : list Q) :
  get_column df (cfg_x cfg) = Some s ->
  floats_present (to_numeric s) = x :: rest ->
  bins_requested cfg < 1 ->
  exists msg, _histogram_bins df cfg = Raise (ValueError msg).
Proof.
  intros Hs Hv Hn. unfold _histogram_bins, ensure_column_exists.
  rewrite Hs. cbn [bind]. rewrite Hv.
  fold (bins_requested cfg). unfold np_histogram.
  destruct (Z.ltb_spec (bins_requested cfg) 1) as [_|Hge]; [|lia].
  cbn [bind]. eauto.
Qed.

(** ** The chart engine: scatter charts *)

Lemma get_upd (k k' : string) (v : Cell) (r : WRow) :
  get k (upd k' v r) = if String.eqb k k' then v else get k r.
Proof.
  induction r as [|[k0 v0] r IH]; simpl.
  - reflexivity.
  - destruct (String.eqb_spec k' k0) as [->|Hne]; simpl.
    + destruct (String.eqb_spec k k0); reflexivity.
    + destruct (String.eqb_spec k k0) as [->|Hne'].
      * destruct (String.eqb_spec k0 k'); [congruence|reflexivity].
      * exact IH.
Qed.

Lemma set_col_length (name : string) (col : list Cell) (w : list WRow) :
  length col = length w -> length (set_col name col w) = length w.
Proof.
  intros H. unfold set_col. rewrite length_map, length_combine. lia.
Qed.

Lemma set_col_get (k name : string) (col : list Cell) (w : list WRow) :
  length col = length w ->
  map (get k) (set_col name col w)
  = if String.eqb k name then col else map (get k) w.
Proof.
  unfold set_col. revert col. induction w as [|r w IH]; intros [|v col] H;
    simpl in H; try discriminate; simpl.
  - now destruct (String.eqb k name).
  - injection H as H. rewrite get_upd, (IH col H).
    now destruct (String.eqb k name).
Qed.

Lemma insert_row_floats (name : string) (r : WRow) (l : list WRow) :
  is_float_cell (get name r) ->
  Forall (fun r' => is_float_cell (get name r')) l ->
  Sorted (fun a b => (x_of name a <= x_of name b)%Q) l ->
  exists l', insert_row name r l = Ok l' /\
             Permutation l' (r :: l) /\
             Sorted (fun a b => (x_of name a <= x_of name b)%Q) l'.
Proof.
  intros [q Hq] Hl Hs. induction Hs as [|h l Hs IH Hh].
  - exists [r]. repeat split; [reflexivity|repeat constructor].
  - inversion Hl as [|? ? [p Hp] Hl']; subst.
    simpl. rewrite Hp, Hq. simpl.
    destruct (Qle_bool q p) eqn:E; simpl.
    + exists (r :: h :: l). repeat split; [reflexivity|].
      constructor; [now constructor|]. constructor.
      unfold x_of. rewrite Hp, Hq. now apply Qle_bool_iff.
    + destruct (IH Hl') as [l' [Hi [Hperm Hsorted]]]. rewrite Hi. simpl.
      exists (h :: l'). repeat split.
      * rewrite Hperm. apply perm_swap.
      * constructor; [exact Hsorted|].
        assert (Hhr : (x_of name h <= x_of name r)%Q).
        { unfold x_of. rewrite Hp, Hq. now apply Qle_bool_false. }
        destruct l as [|g l]; simpl in Hi.
        -- inversion Hi; subst. now constructor.
        -- inversion Hl' as [|? ? [pg Hpg] _]; subst.
           rewrite Hpg, Hq in Hi. simpl in Hi.
           destruct (Qle_bool q pg); simpl in Hi.
           ++ inversion Hi; subst. now constructor.
           ++ destruct (insert_row name r l); simpl in Hi; [discriminate|].
              inversion Hi; subst. constructor. now inversion Hh.
Qed.

Lemma sort_values_floats (name : string) (w : list WRow) :
  Forall (fun r => is_float_cell (get name r)) w ->
  exists w', sort_values name w = Ok w' /\
             Permutation w' w /\
             Sorted (fun a b => (x_of name a <= x_of name b)%Q) w'.
Proof.
  induction 1 as [|r w Hr Hw [w' [Hs [Hp Hsorted]]]].
  - exists []. repeat split; constructor.
  - simpl. rewrite Hs. simpl.
    assert (Hw' : Forall (fun r' => is_float_cell (get name r')) w').
    { rewrite Forall_forall in *. intros r' Hr'. apply Hw.
      eapply Permutation_in; [exact Hp|exact Hr']. }
    destruct (insert_row_floats name r w' Hr Hw' Hsorted) as [l' [Hi [Hp' Hs']]].
    exists l'. repeat split; [exact Hi| |exact Hs'].
    rewrite Hp'. now constructor.
Qed.

Lemma rows_pairs (kx ky : string) (w : list WRow) (fx fy : list PyFloat) :
  map (get kx) w = map cell_of_float fx ->
  map (get ky) w = map cell_of_float fy ->
  Forall (fun r => is_float_cell (get kx r) /\ is_float_cell (get ky r))
         (dropna_subset [kx; ky] w) /\
  map (row_floats kx ky) (dropna_subset [kx; ky] w)
  = map pair_floats (numeric_pairs fx fy).
Proof.
  unfold dropna_subset, numeric_pairs.
  revert fx fy. induction w as [|r w IH]; intros [|a fx] [|b fy] Hx Hy;
    simpl in Hx, Hy; try discriminate.
  - now split.
  - injection Hx as Hxr Hx. injection Hy as Hyr Hy.
    destruct (IH fx fy Hx Hy) as [IH1 IH2].
    assert (Hkeep : forallb (fun k => notna (get k r)) [kx; ky]
                    = match a, b with FVal _, FVal _ => true | _, _ => false end).
    { cbn [forallb]. rewrite Hxr, Hyr. now destruct a, b. }
    cbn [filter combine flat_map]. rewrite Hkeep.
    destruct a as [|p], b as [|q]; cbn [app]; try (split; assumption).
    split.
    + constructor; [|exact IH1]. rewrite Hxr, Hyr. split; eexists; reflexivity.
    + cbn [map]. rewrite IH2. unfold row_floats, to_float. rewrite Hxr, Hyr. reflexivity.
Qed.

Lemma mapM_map {A B} (f : A -> Result B) (g : A -> B) (l : list A) :
  Forall (fun a => f a = Ok (g a)) l -> mapM f l = Ok (map g l).
Proof.
  induction 1 as [|a l Ha _ IH]; simpl; [reflexivity|].
  now rewrite Ha, IH.
Qed.

Lemma Sorted_map_on {A B} (P : A -> Prop) (R : A -> A -> Prop) (S : B -> B -> Prop)
  (g : A -> B) (l : list A) :
  (forall a b, P a -> P b -> R a b -> S (g a) (g b)) ->
  Forall P l -> Sorted R l -> Sorted S (map g l).
Proof.
  intros H HP Hs. induction Hs as [|a l Hs IH Hh]; simpl; [constructor|].
  inversion HP as [|? ? Pa Pl]; subst.
  constructor; [now apply IH|].
  destruct Hh as [|b l Hab]; simpl; constructor.
  inversion Pl; subst. now apply H.
Qed.

Lemma Forall_firstn_keep {A} (P : A -> Prop) (n : nat) (l : list A) :
  Forall P l -> Forall P (firstn n l).
Proof.
  intros H. rewrite Forall_forall in *. intros a Ha. apply H. eapply firstn_In, Ha.
Qed.

(** X18, the part of C4 the code keeps: when the colour column, if any is
    used, is neither [x] nor [y], the points returned are the first
    [limit] rows with a numeric [x] and [y], in ascending order of [x]. *)
Lemma scatter_points_spec (df : DataFrame) (cfg : ChartConfig) (limit : nat)
  (yc : string) (sx sy : Series) :
  cfg_y cfg = Some yc ->
  get_column df (cfg_x cfg) = Some sx ->
  get_column df yc = Some sy ->
  (forall c, truthy (cfg_color cfg) = Some c -> has_column df c = true ->
             c <> cfg_x cfg /\ c <> yc) ->
  exists pts,
    _scatter_points df cfg limit = Ok pts /\
    (length pts <= limit)%nat /\
    Permutation (map point_xy pts)
                (map pair_floats
                     (firstn limit (numeric_pairs (to_numeric sx) (to_numeric sy)))) /\
    Sorted (fun p q => float_le (pt_x p) (pt_x q)) pts.
Proof.
  intros Hy Hsx Hsy Hcolor.
  set (kx := cfg_x cfg) in *.
  unfold _scatter_points. rewrite Hy. unfold ensure_column_exists.
  fold kx. rewrite Hsx, Hsy. cbn [bind].
  set (series_x := map cell_of_float (to_numeric sx)).
  set (series_y := map cell_of_float (to_numeric sy)).
  destruct (get_column_values _ _ _ Hsx) as [_ Hlx].
  destruct (get_column_values _ _ _ Hsy) as [_ Hly].
  assert (Hlsx : length series_x = nrows df).
  { unfold series_x, to_numeric. now rewrite !length_map. }
  assert (Hlsy : length series_y = nrows df).
  { unfold series_y, to_numeric. now rewrite !length_map. }
  set (w1 := set_col kx series_x (repeat [] (nrows df))).
  assert (Hl1 : length w1 = nrows df).
  { unfold w1. rewrite set_col_length; rewrite repeat_length; auto. }
  set (w2 := set_col yc series_y w1).
  assert (Hl2 : length w2 = nrows df).
  { unfold w2. rewrite set_col_length; lia. }
  assert (Hx1 : map (get kx) w1 = series_x).
  { unfold w1. rewrite set_col_get by (rewrite repeat_length; exact Hlsx).
    now rewrite String.eqb_refl. }
  assert (Hy2 : map (get yc) w2 = series_y).
  { unfold w2. rewrite set_col_get by lia. now rewrite String.eqb_refl. }
  assert (Hx2 : map (get kx) w2 = series_x).
  { unfold w2. rewrite set_col_get by lia.
    destruct (String.eqb_spec kx yc) as [E|_]; [|exact Hx1].
    unfold series_x, series_y. rewrite <- E in Hsy. congruence. }
  set (colored :=
         match truthy (cfg_color cfg) with
         | Some c =>
             match get_column df c with
             | Some sc => (set_col c (values sc) w2, [kx; yc] ++ [c])
             | None => (w2, [kx; yc])
             end
         | None => (w2, [kx; yc])
         end).
  assert (Hw : map (get kx) (fst colored) = series_x /\
               map (get yc) (fst colored) = series_y).
  { unfold colored. destruct (truthy (cfg_color cfg)) as [c|]; [|now split].
    destruct (get_column df c) as [sc|] eqn:Ec; [|now split].
    destruct (get_column_values _ _ _ Ec) as [_ Hlc].
    assert (Hc : has_column df c = true).
    { unfold has_column. unfold get_column in Ec.
      destruct (index_of c (columns df)); [reflexivity|discriminate]. }
    destruct (Hcolor c eq_refl Hc) as [Hcx Hcy].
    cbn [fst]. rewrite !set_col_get by lia.
    destruct (String.eqb_spec kx c); [congruence|].
    destruct (String.eqb_spec yc c); [congruence|]. now split. }
  destruct Hw as [Hwx Hwy].
  destruct (rows_pairs kx yc (fst colored) (to_numeric sx) (to_numeric sy) Hwx Hwy)
    as [Hfloat Hpairs].
  set (kept := dropna_subset [kx; yc] (fst colored)) in *.
  set (w3 := firstn limit kept).
  assert (Hf3 : Forall (fun r => is_float_cell (get kx r) /\ is_float_cell (get yc r)) w3)
    by now apply Forall_firstn_keep.
  destruct (sort_values_floats kx w3) as [w4 [Hsort [Hperm Hsorted]]].
  { eapply Forall_impl; [|exact Hf3]. now intros r [H _]. }
  rewrite Hsort. cbn [bind].
  assert (Hf4 : Forall (fun r => is_float_cell (get kx r) /\ is_float_cell (get yc r)) w4).
  { rewrite Forall_forall in *. intros r Hr. apply Hf3.
    eapply Permutation_in; [exact Hperm|exact Hr]. }
  set (mk := fun row =>
               {| pt_x := to_float (get kx row);
                  pt_y := to_float (get yc row);
                  pt_color :=
                    match truthy (cfg_color cfg) with
                    | Some c =>
                        if string_in c (snd colored)
                        then Some (to_python_value (get c row))
                        else None
                    | None => None
                    end |}).
  exists (map mk w4). split; [|split; [|split]].
  - apply mapM_map. eapply Forall_impl; [|exact Hf4].
    intros r [[p Hp] [q Hq]]. unfold float_field, mk, to_float.
    rewrite Hp, Hq. reflexivity.
  - rewrite length_map, (Permutation_length Hperm). unfold w3. apply firstn_le_length.
  - rewrite map_map.
    change (fun x => point_xy (mk x)) with (row_floats kx yc).
    rewrite (Permutation_map (row_floats kx yc) Hperm).
    unfold w3. rewrite <- !firstn_map. now rewrite Hpairs.
  - apply (Sorted_map_on (fun r => is_float_cell (get kx r))
                         (fun a b => (x_of kx a <= x_of kx b)%Q)).
    + intros a b [p Hp] [q Hq] Hab. unfold mk, to_float, x_of in *. cbn [pt_x].
      rewrite Hp, Hq in *. exact Hab.
    + eapply Forall_impl; [|exact Hf4]. now intros r [H _].
    + exact Hsorted.
Qed.

(** ** The dataset store *)

Lemma dict_get_set_same (key : string) (value : DatasetRecord) (d : DatasetStore) :
  dict_get key (dict_set key value d) = Some value.
Proof.
  induction d as [|[k v] d IH]; simpl.
  - now rewrite String.eqb_refl.
  - destruct (String.eqb_spec key k) as [->|Hne]; simpl.
    + now rewrite String.eqb_refl.
    + destruct (String.eqb_spec key k); [contradiction|exact IH].
Qed.

Lemma dict_get_set_other (key key' : string) (value : DatasetRecord) (d : DatasetStore) :
  key' <> key -> dict_get key' (dict_set key value d) = dict_get key' d.
Proof.
  intros Hne. induction d as [|[k v] d IH]; simpl.
  - destruct (String.eqb_spec key' key); [contradiction|reflexivity].
  - destruct (String.eqb_spec key k) as [->|Hk]; simpl.
    + destruct (String.eqb_spec key' k); [contradiction|reflexivity].
    + destruct (String.eqb_spec key' k); [reflexivity|exact IH].
Qed.

Lemma dict_get_In (key : string) (d : DatasetStore) (v : DatasetRecord) :
  dict_get key d = Some v -> In (key, v) d.
Proof.
  induction d as [|[k w] d IH]; simpl; [discriminate|].
  destruct (String.eqb_spec key k) as [->|Hne].
  - intros H. inversion H. now left.
  - intros H. right. now apply IH.
Qed.

Lemma dict_get_None (key : string) (d : DatasetStore) :
  dict_get key d = None <-> ~ In key (map fst d).
Proof.
  induction d as [|[k w] d IH]; simpl.
  - split; [intros _ []|reflexivity].
  - destruct (String.eqb_spec key k) as [->|Hne].
    + split; [discriminate|]. intros H. exfalso. apply H. now left.
    + rewrite IH. split; intros H.
      * intros [E|E]; [congruence|contradiction].
      * intros E. apply H. now right.
Qed.

Lemma dict_set_keys_present (key : string) (value v0 : DatasetRecord) (d : DatasetStore) :
  dict_get key d = Some v0 -> map fst (dict_set key value d) = map fst d.
Proof.
  induction d as [|[k w] d IH]; simpl; [discriminate|].
  destruct (String.eqb_spec key k) as [->|Hne]; simpl.
  - reflexivity.
  - intros H. now rewrite IH.
Qed.

Lemma dict_set_keys_fresh (key : string) (value : DatasetRecord) (d : DatasetStore) :
  dict_get key d = None -> dict_set key value d = d ++ [(key, value)].
Proof.
  induction d as [|[k w] d IH]; simpl; [reflexivity|].
  destruct (String.eqb_spec key k) as [->|Hne]; [discriminate|].
  intros H. now rewrite IH.
Qed.

Lemma dict_set_In (key : string) (value : DatasetRecord) (d : DatasetStore)
  (b : string * DatasetRecord) :
  In b (dict_set key value d) -> b = (key, value) \/ In b d.
Proof.
  induction d as [|[k w] d IH]; simpl.
  - intros [<-|[]]. now left.
  - destruct (String.eqb_spec key k) as [->|Hne]; simpl.
    + intros [<-|H]; [now left|right; now right].
    + intros [<-|H]; [right; now left|].
      destruct (IH H) as [->|H']; [now left|right; now right].
Qed.

(** X1: a dataset that was created is found again.  After [create] the
    new identifier answers with the record built, stamped with the
    instant of creation and counting the rows and columns of its table;
    every other identifier answers as before, and a fresh identifier adds
    one binding at the end of the registry. *)
Theorem create_then_get (store : DatasetStore) (dataset_id : string) (now : Z)
  (name : string) (filename : option string) (df : DataFrame) (profile : Profile) :
  let record := fst (create store dataset_id now name filename df profile) in
  let store' := snd (create store dataset_id now name filename df profile) in
  store_get store' dataset_id = Ok record /\
  record_dataframe record = df /\
  row_count record = Z.of_nat (nrows df) /\
  column_count record = Z.of_nat (ncols df) /\
  created_at record = now /\ updated_at record = now /\
  (forall other, other <> dataset_id -> store_get store' other = store_get store other) /\
  (store_get store dataset_id = Raise (KeyError dataset_id) ->
   store' = store ++ [(dataset_id, record)]).
Proof.
  cbv zeta. unfold create, store_get. cbn [fst snd].
  rewrite dict_get_set_same.
  repeat split.
  - intros other Hne. now rewrite dict_get_set_other.
  - intros H. apply dict_set_keys_fresh.
    destruct (dict_get dataset_id store); [discriminate|reflexivity].
Qed.

(** X2: [update_profile] touches one record only.  For an identifier the
    registry lacks it raises [KeyError] naming it; otherwise the
    identifier afterwards answers with the same record carrying the new
    profile, the counts of its table and the new instant of update, every
    other identifier answers as before, and the identifiers keep their
    order. *)
Theorem update_profile_one_record (store : DatasetStore) (dataset_id : string)
  (profile : Profile) (now : Z) :
  (store_get store dataset_id = Raise (KeyError dataset_id) ->
   update_profile store dataset_id profile now = Raise (KeyError dataset_id)) /\
  (forall record, store_get store dataset_id = Ok record ->
     exists store',
       update_profile store dataset_id profile now = Ok store' /\
       store_get store' dataset_id = Ok (with_profile record profile now) /\
       (forall other, other <> dataset_id ->
          store_get store' other = store_get store other) /\
       map fst store' = map fst store).
Proof.
  unfold update_profile, store_get. split.
  - destruct (dict_get dataset_id store); [discriminate|reflexivity].
  - intros record H. destruct (dict_get dataset_id store) as [r|] eqn:E; [|discriminate].
    inversion H; subst r. eexists. split; [reflexivity|].
    rewrite dict_get_set_same. split; [reflexivity|]. split.
    + intros other Hne. now rewrite dict_get_set_other.
    + eapply dict_set_keys_present, E.
Qed.

Lemma insert_recent_perm (r : DatasetRecord) (l : list DatasetRecord) :
  Permutation (insert_recent r l) (r :: l).
Proof.
  induction l as [|h l IH]; simpl; [reflexivity|].
  destruct (updated_at r <? updated_at h); [|reflexivity].
  rewrite IH. apply perm_swap.
Qed.

Lemma sort_recent_perm (l : list DatasetRecord) : Permutation (sort_recent l) l.
Proof.
  unfold sort_recent. induction l as [|r l IH]; simpl; [reflexivity|].
  rewrite insert_recent_perm. now constructor.
Qed.

Lemma insert_recent_sorted (r : DatasetRecord) (l : list DatasetRecord) :
  StronglySorted newer_or_equal l -> StronglySorted newer_or_equal (insert_recent r l).
Proof.
  induction 1 as [|h l Hs IH Hh]; simpl; [repeat constructor|].
  destruct (Z.ltb_spec (updated_at r) (updated_at h)) as [Hlt|Hge].
  - constructor; [exact IH|].
    rewrite Forall_forall in *. intros x Hx.
    apply (Permutation_in _ (insert_recent_perm r l)) in Hx.
    destruct Hx as [<-|Hx]; [unfold newer_or_equal; lia|now apply Hh].
  - constructor; [now constructor|].
    constructor; [unfold newer_or_equal; lia|].
    rewrite Forall_forall in *. intros x Hx. specialize (Hh x Hx).
    unfold newer_or_equal in *. lia.
Qed.

Lemma sort_recent_sorted (l : list DatasetRecord) :
  StronglySorted newer_or_equal (sort_recent l).
Proof.
  unfold sort_recent. induction l as [|r l IH]; simpl; [constructor|].
  now apply insert_recent_sorted.
Qed.

Lemma StronglySorted_app_split {A} (R : A -> A -> Prop) (l1 l2 : list A) :
  StronglySorted R (l1 ++ l2) ->
  StronglySorted R l1 /\ forall a b, In a l1 -> In b l2 -> R a b.
Proof.
  induction l1 as [|x l1 IH]; simpl; intros H.
  - split; [constructor|]. intros a b [].
  - inversion H as [|? ? Hs Hx]; subst. destruct (IH Hs) as [IH1 IH2].
    rewrite Forall_forall in Hx. split.
    + constructor; [exact IH1|]. rewrite Forall_forall. intros y Hy.
      apply Hx, in_or_app. now left.
    + intros a b [<-|Ha] Hb; [apply Hx, in_or_app; now right|now apply IH2].
Qed.

(** X3: [list_recent] returns the most recently updated records.  For a
    limit of at least zero it returns at most [limit] records of the
    registry, the latest update first, and no record left out was updated
    later than a record returned; with a limit of at least the size of
    the registry every record is returned. *)
Theorem list_recent_latest (store : DatasetStore) (limit : Z) :
  0 <= limit ->
  let recent := list_recent store limit in
  Z.of_nat (length recent) = Z.min limit (Z.of_nat (length store)) /\
  StronglySorted newer_or_equal recent /\
  exists left_out,
    Permutation (recent ++ left_out) (map snd store) /\
    (forall r r', In r recent -> In r' left_out -> newer_or_equal r r') /\
    (Z.of_nat (length store) <= limit -> left_out = []).
Proof.
  intros Hl. cbv zeta. unfold list_recent.
  set (sorted := sort_recent (map snd store)).
  assert (Hlen : length sorted = length store).
  { unfold sorted. rewrite (Permutation_length (sort_recent_perm _)). apply length_map. }
  assert (Hslice : py_slice sorted 0 limit = firstn (Z.to_nat limit) sorted).
  { unfold py_slice, slice_bound. cbn [Z.ltb Z.compare].
    destruct (Z.ltb_spec limit 0) as [Hneg|_]; [lia|].
    rewrite (Z.min_l 0) by lia. cbn [Z.to_nat skipn]. rewrite Z.sub_0_r.
    destruct (Z_le_gt_dec limit (Z.of_nat (length sorted))) as [Hin|Hout].
    - now rewrite (Z.min_l limit) by lia.
    - rewrite (Z.min_r limit) by lia. rewrite Nat2Z.id.
      rewrite !firstn_all2; [reflexivity|lia|lia]. }
  rewrite Hslice.
  pose proof (sort_recent_sorted (map snd store)) as Hsorted. fold sorted in Hsorted.
  rewrite <- (firstn_skipn (Z.to_nat limit) sorted) in Hsorted.
  destruct (StronglySorted_app_split _ _ _ Hsorted) as [Hs1 Hs2].
  split; [|split; [exact Hs1|]].
  - rewrite length_firstn, Hlen. lia.
  - exists (skipn (Z.to_nat limit) sorted). split; [|split].
    + rewrite firstn_skipn. apply sort_recent_perm.
    + exact Hs2.
    + intros Hall. apply skipn_all2. lia.
Qed.

Lemma dict_set_NoDup (key : string) (value : DatasetRecord) (d : DatasetStore) :
  NoDup (map fst d) -> NoDup (map fst (dict_set key value d)).
Proof.
  intros H. destruct (dict_get key d) as [v0|] eqn:E.
  - now rewrite (dict_set_keys_present key value v0 d E).
  - rewrite (dict_set_keys_fresh key value d E), map_app. simpl.
    apply NoDup_app_remove_l with (l := []). simpl.
    apply Permutation_NoDup with (l := key :: map fst d).
    + apply Permutation_cons_append.
    + constructor; [now apply dict_get_None|exact H].
Qed.

(** X4: the registry keeps its invariant.  The empty registry has one
    binding per identifier, each record filed under its own identifier
    with the row and column counts of its table; [create],
    [update_profile] and [clear] keep it so, and every record [get]
    returns then carries the identifier asked for and the shape of its
    table. *)
Theorem store_invariant (store : DatasetStore) :
  store_ok store ->
  (forall dataset_id now name filename df profile,
     store_ok (snd (create store dataset_id now name filename df profile))) /\
  (forall dataset_id profile now store',
     update_profile store dataset_id profile now = Ok store' -> store_ok store') /\
  store_ok (clear store) /\
  (forall dataset_id record,
     store_get store dataset_id = Ok record ->
     record_dataset_id record = dataset_id /\
     row_count record = Z.of_nat (nrows (record_dataframe record)) /\
     column_count record = Z.of_nat (ncols (record_dataframe record))).
Proof.
  intros [Hnd Hok].
  assert (Hset : forall key value,
             record_ok (key, value) -> store_ok (dict_set key value store)).
  { intros key value Hv. split; [now apply dict_set_NoDup|].
    rewrite Forall_forall in *. intros b Hb.
    destruct (dict_set_In _ _ _ _ Hb) as [->|Hin]; [exact Hv|now apply Hok]. }
  split; [|split; [|split]].
  - intros dataset_id now name filename df profile. unfold create. cbn [snd].
    apply Hset. repeat split.
  - intros dataset_id profile now store' H. unfold update_profile in H.
    destruct (dict_get dataset_id store) as [r|] eqn:E; [|discriminate].
    inversion H; subst store'. apply Hset.
    rewrite Forall_forall in Hok. destruct (Hok _ (dict_get_In _ _ _ E)) as [Hid _].
    repeat split. exact Hid.
  - split; constructor.
  - intros dataset_id record H. unfold store_get in H.
    destruct (dict_get dataset_id store) as [r|] eqn:E; [|discriminate].
    inversion H; subst r. rewrite Forall_forall in Hok.
    exact (Hok _ (dict_get_In _ _ _ E)).
Qed.
(** ** More on the filter engine *)

Lemma select_and_true_ext {A} (p : A -> bool) (l : list A) (mask : list bool) :
  mask = map p l ->
  select l (and_mask (repeat true (length l)) mask) = filter p l.
Proof. intros ->. apply select_and_true_map. Qed.

Lemma and_mask_assoc (m a b : list bool) :
  and_mask (and_mask m a) b = and_mask m (and_mask a b).
Proof.
  unfold and_mask. revert a b.
  induction m as [|x m IH]; intros [|y a] [|z b]; simpl; try reflexivity.
  now rewrite IH, andb_assoc.
Qed.

Lemma and_mask_map2 {A} (p q : A -> bool) (l : list A) :
  and_mask (map p l) (map q l) = map (fun x => p x && q x) l.
Proof.
  unfold and_mask. induction l as [|x l IH]; simpl; [reflexivity|now rewrite IH].
Qed.

Lemma series_cmp_numeric (op : CmpOp) (s : Series) (a : Q) :
  Forall numeric_cell (values s) ->
  series_cmp op s (CFloat a)
  = Ok (map (fun c => match present_number c with
                      | Some q => cmp_Q op q a
                      | None => false
                      end) (values s)).
Proof.
  intros H. unfold series_cmp. cbn [isna is_str]. rewrite andb_false_r.
  induction H as [|c l Hc _ IH]; [reflexivity|].
  cbn [mapM map]. rewrite IH.
  destruct Hc as [Hna|[q Hq]].
  - destruct c; try discriminate. reflexivity.
  - destruct c; try discriminate; simpl in *; inversion Hq; subst; reflexivity.
Qed.

(** X5: a range filter with numeric bounds on a numeric column returns
    exactly the rows whose cell holds a number within the bounds, both
    bounds inclusive and each optional; a row whose cell is missing is
    returned only when no bound is given. *)
Theorem range_filter_selects (df : DataFrame) (column : string) (lo hi : option Q)
  (s : Series) :
  get_column df column = Some s ->
  is_numeric_dtype (dtype s) = true ->
  Forall numeric_cell (values s) ->
  apply_filters df [RangeFilter column (option_map CFloat lo) (option_map CFloat hi)]
  = Ok {| columns := columns df; dtypes := dtypes df;
          rows := filter (fun row => in_range lo hi (row_cell df column row)) (rows df) |}.
Proof.
  intros Hs Hnum Hcells.
  destruct (get_column_values _ _ _ Hs) as [Hv Hl].
  assert (Hco : forall a, coerce_value_for_series s (CFloat a) = CFloat a).
  { intros a. unfold coerce_value_for_series. cbn [isna]. now rewrite Hnum. }
  unfold apply_filters, filter_loop, filter_step, ensure_column_exists.
  cbn [filter_column]. rewrite Hs. unfold df_mask, nrows.
  destruct lo as [a|], hi as [b|]; cbn [option_map bind];
    rewrite ?Hco, ?series_cmp_numeric by exact Hcells; cbn [bind];
    f_equal; f_equal.
  - rewrite and_mask_assoc, Hv, !map_map, and_mask_map2.
    apply select_and_true_ext. apply map_ext. intros row.
    unfold in_range. destruct (present_number (row_cell df column row)); reflexivity.
  - rewrite Hv, !map_map.
    apply select_and_true_ext. apply map_ext. intros row.
    unfold in_range. destruct (present_number (row_cell df column row)); cbn [cmp_Q];
      now rewrite ?andb_true_r.
  - rewrite Hv, !map_map.
    apply select_and_true_ext. apply map_ext. intros row.
    unfold in_range. destruct (present_number (row_cell df column row)); reflexivity.
  - rewrite select_all_true. symmetry. apply forallb_filter_id.
    apply forallb_forall. reflexivity.
Qed.

Lemma and_mask_swap (m a b : list bool) :
  and_mask (and_mask m a) b = and_mask (and_mask m b) a.
Proof.
  unfold and_mask. revert a b.
  induction m as [|x m IH]; intros [|y a] [|z b]; simpl; try reflexivity.
  rewrite IH. f_equal. destruct x, y, z; reflexivity.
Qed.

Lemma fold_and_mask_swap (cs : list (list bool)) (m b : list bool) :
  fold_left and_mask cs (and_mask m b) = and_mask (fold_left and_mask cs m) b.
Proof.
  revert m. induction cs as [|c cs IH]; intros m; simpl; [reflexivity|].
  now rewrite and_mask_swap, IH.
Qed.

Lemma fold_and_mask_commute (cs ds : list (list bool)) (m : list bool) :
  fold_left and_mask cs (fold_left and_mask ds m)
  = fold_left and_mask ds (fold_left and_mask cs m).
Proof.
  revert m. induction ds as [|d ds IH]; intros m; simpl; [reflexivity|].
  now rewrite IH, fold_and_mask_swap.
Qed.

(** One turn of the filter loop either raises whatever the mask, or ANDs
    masks that do not depend on the mask it is given. *)
Lemma filter_step_shape (df : DataFrame) (f : Filter) :
  (exists e, forall mask, filter_step df mask f = Raise e) \/
  (exists cs, forall mask, filter_step df mask f = Ok (fold_left and_mask cs mask)).
Proof.
  unfold filter_step.
  destruct (ensure_column_exists df (filter_column f)) as [e|s] eqn:E.
  - right. exists []. intros mask. unfold ensure_column_exists in E.
    destruct (get_column df (filter_column f)); [discriminate|]. now inversion E.
  - destruct f as [c v|c lo hi].
    + destruct (isna (coerce_value_for_series s v)).
      * right. exists [series_isna s]. reflexivity.
      * right. exists [series_eq s (coerce_value_for_series s v)]. reflexivity.
    + destruct lo as [v|], hi as [w|]; cbn [bind].
      * destruct (series_cmp GE s _) as [e|m1]; cbn [bind]; [left; eauto|].
        destruct (series_cmp LE s _) as [e|m2]; cbn [bind]; [left; eauto|].
        right. exists [m1; m2]. reflexivity.
      * destruct (series_cmp GE s _) as [e|m1]; cbn [bind]; [left; eauto|].
        right. exists [m1]. reflexivity.
      * destruct (series_cmp LE s _) as [e|m2]; cbn [bind]; [left; eauto|].
        right. exists [m2]. reflexivity.
      * right. exists []. reflexivity.
Qed.

Lemma filter_step_commute (df : DataFrame) (f g : Filter) (mask m1 m2 : list bool) :
  filter_step df mask f = Ok m1 -> filter_step df m1 g = Ok m2 ->
  exists m1', filter_step df mask g = Ok m1' /\ filter_step df m1' f = Ok m2.
Proof.
  intros Hf Hg.
  destruct (filter_step_shape df f) as [[e He]|[cs Hcs]]; [rewrite He in Hf; discriminate|].
  destruct (filter_step_shape df g) as [[e He]|[ds Hds]]; [rewrite He in Hg; discriminate|].
  rewrite Hcs in Hf. rewrite Hds in Hg. inversion Hf; subst m1. inversion Hg; subst m2.
  exists (fold_left and_mask ds mask). split; [apply Hds|].
  rewrite Hcs. f_equal. apply fold_and_mask_commute.
Qed.

Lemma filter_loop_perm (df : DataFrame) (fs gs : list Filter) :
  Permutation fs gs ->
  forall mask m, filter_loop df fs mask = Ok m -> filter_loop df gs mask = Ok m.
Proof.
  induction 1 as [|f fs gs _ IH|f g fs|fs gs hs _ IH1 _ IH2]; intros mask m H.
  - exact H.
  - simpl in *. destruct (filter_step df mask f); cbn [bind] in *; [discriminate|].
    now apply IH.
  - simpl in *.
    destruct (filter_step df mask g) as [e|m1] eqn:Eg; cbn [bind] in H; [discriminate|].
    destruct (filter_step df m1 f) as [e|m2] eqn:Ef; cbn [bind] in H; [discriminate|].
    destruct (filter_step_commute df g f mask m1 m2 Eg Ef) as [m1' [Hf' Hg']].
    rewrite Hf'. cbn [bind]. rewrite Hg'. exact H.
  - apply IH2, IH1, H.
Qed.

(** X6: the order of the filters does not matter.  When a list of filters
    is applied without raising, any rearrangement of the list is applied
    without raising too and returns the same table. *)
Theorem apply_filters_any_order (df : DataFrame) (fs gs : list Filter) (r : DataFrame) :
  Permutation fs gs ->
  apply_filters df fs = Ok r ->
  apply_filters df gs = Ok r.
Proof.
  intros Hp H. destruct fs as [|f fs].
  - apply Permutation_nil in Hp. now subst gs.
  - destruct gs as [|g gs]; [apply Permutation_sym, Permutation_nil in Hp; discriminate|].
    unfold apply_filters in *.
    destruct (filter_loop df (f :: fs) _) as [e|m] eqn:E; cbn [bind] in H; [discriminate|].
    now rewrite (filter_loop_perm df _ _ Hp _ _ E).
Qed.

(** The rows a single Equals filter returns. *)
Lemma equals_filter_rows (df : DataFrame) (column : string) (v : Cell) (s : Series) :
  get_column df column = Some s ->
  apply_filters df [EqualsFilter column v]
  = Ok {| columns := columns df; dtypes := dtypes df;
          rows := filter (equals_keeps df column (coerce_value_for_series s v))
                         (rows df) |}.
Proof.
  intros Hs. destruct (get_column_values _ _ _ Hs) as [Hv _].
  unfold apply_filters, filter_loop, filter_step, ensure_column_exists.
  cbn [filter_column]. rewrite Hs. unfold df_mask, nrows, equals_keeps.
  destruct (isna (coerce_value_for_series s v)); cbn [bind]; f_equal; f_equal.
  - unfold series_isna. rewrite Hv, map_map. apply select_and_true_map.
  - unfold series_eq. rewrite Hv, map_map.
    apply (select_and_true_map
             (fun row => py_eq (row_cell df column row) (coerce_value_for_series s v))).
Qed.

(** X7: the textual forms of a boolean are not recognised.  On a column of
    boolean dtype an Equals filter whose literal is a string that is
    neither blank nor a number returns no row: boolean dtypes count as
    numeric, so the literal is kept as the string it is and no cell of
    the column equals a string. *)
Theorem boolean_text_matches_nothing (df : DataFrame) (column w : string) (s : Series) :
  get_column df column = Some s ->
  is_bool_dtype (dtype s) = true ->
  strip w <> EmptyString ->
  py_float w = None ->
  Forall (fun c => is_str c = false) (values s) ->
  coerce_value_for_series s (CStr w) = CStr w /\
  apply_filters df [EqualsFilter column (CStr w)]
  = Ok {| columns := columns df; dtypes := dtypes df; rows := [] |}.
Proof.
  intros Hs Hb Hw Hf Hcells.
  assert (Hco : coerce_value_for_series s (CStr w) = CStr w).
  { unfold coerce_value_for_series. cbn [isna].
    destruct (dtype s); try discriminate. cbn [is_numeric_dtype].
    destruct (String.eqb_spec (strip w) EmptyString); [contradiction|].
    now rewrite Hf. }
  split; [exact Hco|].
  rewrite (equals_filter_rows df column (CStr w) s Hs), Hco. f_equal. f_equal.
  destruct (get_column_values _ _ _ Hs) as [Hv _].
  rewrite Hv in Hcells. rewrite Forall_map in Hcells. clear Hv.
  induction Hcells as [|row l Hrow _ IH]; [reflexivity|].
  cbn [filter]. unfold equals_keeps at 1. cbn [isna].
  destruct (row_cell df column row); try discriminate; cbn [py_eq num_of]; exact IH.
Qed.
(** ** Filtering in stages *)

Lemma select_nil_r {A} (l : list A) : select l [] = [].
Proof. unfold select. now rewrite combine_nil. Qed.

Lemma map_select {A B} (f : A -> B) (l : list A) (m : list bool) :
  map f (select l m) = select (map f l) m.
Proof.
  revert m. induction l as [|a l IH]; intros [|b m]; try reflexivity.
  cbn [map]. rewrite !select_cons. destruct b; cbn [map]; now rewrite IH.
Qed.

Lemma and_mask_nil_r (a : list bool) : and_mask a [] = [].
Proof. unfold and_mask. now rewrite combine_nil. Qed.

Lemma and_mask_select (a b m : list bool) :
  and_mask (select a m) (select b m) = select (and_mask a b) m.
Proof.
  revert b m. induction a as [|x a IH]; intros [|y b] [|z m]; try reflexivity.
  - rewrite and_mask_nil_r. change (select [] (z :: m)) with (@nil bool).
    now rewrite and_mask_nil_r.
  - change (and_mask (x :: a) (y :: b)) with ((x && y) :: and_mask a b).
    rewrite !select_cons. destruct z; [|apply IH].
    change (and_mask (x :: select a m) (y :: select b m))
      with ((x && y) :: and_mask (select a m) (select b m)).
    now rewrite IH.
Qed.

Lemma fold_and_mask_select (cs : list (list bool)) (t m : list bool) :
  fold_left and_mask (map (fun c => select c m) cs) (select t m)
  = select (fold_left and_mask cs t) m.
Proof.
  revert t. induction cs as [|c cs IH]; intros t; cbn [map fold_left]; [reflexivity|].
  now rewrite and_mask_select, IH.
Qed.

Lemma repeat_true_select {A} (l : list A) (m : list bool) :
  repeat true (length (select l m)) = select (repeat true (length l)) m.
Proof.
  revert m. induction l as [|a l IH]; intros [|b m]; try reflexivity.
  cbn [length repeat]. rewrite !select_cons. destruct b; cbn [length repeat]; now rewrite IH.
Qed.

Lemma select_select {A} (l : list A) (m c : list bool) :
  select (select l m) (select c m) = select l (and_mask m c).
Proof.
  revert m c. induction l as [|a l IH]; intros [|b m] [|y c]; try reflexivity.
  - rewrite !select_nil_r. reflexivity.
  - change (and_mask (b :: m) (y :: c)) with ((b && y) :: and_mask m c).
    rewrite !select_cons. destruct b; cbn [andb].
    + rewrite select_cons. destruct y; now rewrite IH.
    + apply IH.
Qed.

Lemma and_mask_comm (a b : list bool) : and_mask a b = and_mask b a.
Proof.
  unfold and_mask. revert b. induction a as [|x a IH]; intros [|y b]; try reflexivity.
  cbn [combine map fst snd]. now rewrite IH, andb_comm.
Qed.

Lemma select_and_all {A} (l : list A) (m : list bool) :
  select l (and_mask m (repeat true (length l))) = select l m.
Proof.
  revert m. induction l as [|a l IH]; intros [|b m]; try reflexivity.
  cbn [length repeat].
  change (and_mask (b :: m) (true :: repeat true (length l)))
    with ((b && true) :: and_mask m (repeat true (length l))).
  rewrite !select_cons, andb_true_r. now rewrite IH.
Qed.

Lemma mapM_select {A B} (f : A -> Result B) (l : list A) (bs : list B) (m : list bool) :
  mapM f l = Ok bs -> mapM f (select l m) = Ok (select bs m).
Proof.
  revert bs m. induction l as [|a l IH]; intros bs m H; simpl in H.
  - inversion H. reflexivity.
  - destruct (f a) as [e|b] eqn:Ea; cbn [bind] in H; [discriminate|].
    destruct (mapM f l) as [e|bs'] eqn:El; cbn [bind] in H; [discriminate|].
    inversion H; subst bs. destruct m as [|z m]; [reflexivity|].
    rewrite !select_cons. destruct z.
    + cbn [mapM]. rewrite Ea. cbn [bind]. now rewrite (IH bs' m eq_refl).
    + now apply IH.
Qed.

Lemma coerce_value_dtype (s s' : Series) (v : Cell) :
  dtype s' = dtype s ->
  coerce_value_for_series s' v = coerce_value_for_series s v.
Proof. unfold coerce_value_for_series. now intros ->. Qed.

Lemma series_cmp_select (op : CmpOp) (s s' : Series) (v : Cell) (c m : list bool) :
  dtype s' = dtype s ->
  values s' = select (values s) m ->
  series_cmp op s v = Ok c ->
  series_cmp op s' v = Ok (select c m).
Proof.
  unfold series_cmp. intros -> -> H.
  destruct (isna v).
  - inversion H. now rewrite map_select.
  - destruct (is_numeric_dtype (dtype s) && is_str v); [discriminate|].
    now apply mapM_select.
Qed.

(** One turn of the loop on a table and on a selection of its rows. *)
Lemma filter_step_selected (df : DataFrame) (f : Filter) (m : list bool) :
  (exists e, forall mask, filter_step df mask f = Raise e) \/
  (exists cs,
      (forall mask, filter_step df mask f = Ok (fold_left and_mask cs mask)) /\
      (forall mask, filter_step (df_mask df m) mask f
                    = Ok (fold_left and_mask (map (fun c => select c m) cs) mask))).
Proof.
  unfold filter_step, ensure_column_exists, get_column. cbn [df_mask columns].
  destruct (index_of (filter_column f) (columns df)) as [j|]; cbn [option_map];
    [|right; exists []; split; reflexivity].
  set (s := column_at df j).
  set (s' := column_at (df_mask df m) j).
  assert (Hd : dtype s' = dtype s) by reflexivity.
  assert (Hv : values s' = select (values s) m).
  { unfold s', s, column_at, df_mask. cbn [values rows]. apply map_select. }
  destruct f as [c v|c lo hi].
  - rewrite (coerce_value_dtype s s' v Hd).
    destruct (isna (coerce_value_for_series s v)).
    + right. exists [series_isna s]. split; [reflexivity|].
      intros mask. cbn [map fold_left]. unfold series_isna. now rewrite Hv, map_select.
    + right. exists [series_eq s (coerce_value_for_series s v)]. split; [reflexivity|].
      intros mask. cbn [map fold_left]. unfold series_eq. now rewrite Hv, map_select.
  - destruct lo as [v|], hi as [w|]; cbn [bind];
      rewrite ?(coerce_value_dtype s s' v Hd), ?(coerce_value_dtype s s' w Hd).
    + destruct (series_cmp GE s _) as [e|m1] eqn:E1; cbn [bind]; [left; eauto|].
      destruct (series_cmp LE s _) as [e|m2] eqn:E2; cbn [bind]; [left; eauto|].
      right. exists [m1; m2]. split; [reflexivity|]. intros mask.
      rewrite (series_cmp_select _ s s' _ _ m Hd Hv E1). cbn [bind].
      now rewrite (series_cmp_select _ s s' _ _ m Hd Hv E2).
    + destruct (series_cmp GE s _) as [e|m1] eqn:E1; cbn [bind]; [left; eauto|].
      right. exists [m1]. split; [reflexivity|]. intros mask.
      now rewrite (series_cmp_select _ s s' _ _ m Hd Hv E1).
    + destruct (series_cmp LE s _) as [e|m2] eqn:E2; cbn [bind]; [left; eauto|].
      right. exists [m2]. split; [reflexivity|]. intros mask.
      now rewrite (series_cmp_select _ s s' _ _ m Hd Hv E2).
    + right. exists []. split; reflexivity.
Qed.

Lemma filter_loop_selected (df : DataFrame) (gs : list Filter) (m mask0 M : list bool) :
  filter_loop df gs mask0 = Ok M ->
  exists cs,
    (forall mask, filter_loop df gs mask = Ok (fold_left and_mask cs mask)) /\
    (forall mask, filter_loop (df_mask df m) gs mask
                  = Ok (fold_left and_mask (map (fun c => select c m) cs) mask)).
Proof.
  revert mask0. induction gs as [|g gs IH]; intros mask0 H.
  - exists []. split; reflexivity.
  - cbn [filter_loop] in H.
    destruct (filter_step_selected df g m) as [[e He]|[cs [Hcs Hcs']]];
      [rewrite He in H; discriminate|].
    rewrite Hcs in H. cbn [bind] in H.
    destruct (IH _ H) as [ds [Hds Hds']].
    exists (cs ++ ds). split; intros mask; cbn [filter_loop].
    + rewrite Hcs. cbn [bind]. now rewrite Hds, fold_left_app.
    + rewrite Hcs'. cbn [bind]. now rewrite Hds', map_app, fold_left_app.
Qed.

(** X8: filtering in two stages.  When a list of filters followed by a
    second list is applied without raising, the first list alone is
    applied without raising, and applying the second list to the table it
    returns gives the table the whole list returns. *)
Theorem apply_filters_in_stages (df : DataFrame) (fs gs : list Filter) (r : DataFrame) :
  apply_filters df (fs ++ gs) = Ok r ->
  exists r1, apply_filters df fs = Ok r1 /\ apply_filters r1 gs = Ok r.
Proof.
  intros H. destruct fs as [|f fs]; [exists df; split; [reflexivity|exact H]|].
  destruct gs as [|g gs]; [exists r; split; [now rewrite app_nil_r in H|reflexivity]|].
  change ((f :: fs) ++ g :: gs) with (f :: (fs ++ g :: gs)) in H.
  unfold apply_filters in *.
  change (f :: (fs ++ g :: gs)) with ((f :: fs) ++ g :: gs) in H.
  rewrite filter_loop_app in H.
  destruct (filter_loop df (f :: fs) _) as [e|m1]; cbn [bind] in H; [discriminate|].
  destruct (filter_loop df (g :: gs) m1) as [e|M] eqn:EM; cbn [bind] in H; [discriminate|].
  inversion H; subst r. clear H.
  exists (df_mask df m1). split; [reflexivity|].
  destruct (filter_loop_selected df (g :: gs) m1 m1 M EM) as [cs [Hcs Hcs']].
  rewrite Hcs'. cbn [bind]. rewrite Hcs in EM. inversion EM as [HM].
  unfold df_mask. cbn [columns dtypes rows]. f_equal.
  unfold nrows. cbn [rows].
  rewrite repeat_true_select, fold_and_mask_select, select_select.
  rewrite (and_mask_comm m1), <- fold_and_mask_swap.
  rewrite (and_mask_comm _ m1), fold_and_mask_swap.
  now rewrite select_and_all.
Qed.

Lemma and_mask_diag (m : list bool) : and_mask m m = m.
Proof.
  unfold and_mask. induction m as [|b m IH]; [reflexivity|].
  cbn [combine map fst snd]. now rewrite IH, andb_diag.
Qed.

(** X9: filtering is idempotent.  When a list of filters is applied
    without raising, applying the same list to the table it returns
    does not raise and returns that table unchanged. *)
Theorem apply_filters_idempotent (df : DataFrame) (fs : list Filter) (r : DataFrame) :
  apply_filters df fs = Ok r ->
  apply_filters r fs = Ok r.
Proof.
  intros H. destruct fs as [|f fs]; [reflexivity|].
  unfold apply_filters in *.
  destruct (filter_loop df (f :: fs) _) as [e|M] eqn:EM; cbn [bind] in H; [discriminate|].
  inversion H; subst r. clear H.
  destruct (filter_loop_selected df (f :: fs) M _ M EM) as [cs [Hcs Hcs']].
  rewrite Hcs'. cbn [bind]. rewrite Hcs in EM. inversion EM as [HM].
  unfold df_mask at 1 3. cbn [columns dtypes rows]. f_equal.
  unfold nrows in *. cbn [df_mask rows].
  rewrite repeat_true_select, fold_and_mask_select, HM, select_select.
  now rewrite and_mask_diag.
Qed.
(** ** More on the profile engine *)

Lemma combine_seq_names (names : list string) (start : nat) :
  map snd (combine (seq start (length names)) names) = names.
Proof.
  revert start. induction names as [|n names IH]; intros start; simpl; [reflexivity|].
  now rewrite IH.
Qed.

Lemma frame_columns_names (df : DataFrame) :
  map fst (frame_columns df) = columns df.
Proof.
  unfold frame_columns. rewrite map_map. simpl.
  rewrite <- (combine_seq_names (columns df) 0) at 3.
  reflexivity.
Qed.

Lemma profile_column_name (total : Z) (name : string) (s : Series) (cp : ColumnProfile) :
  profile_column total name s = Ok cp -> cp_name cp = name.
Proof.
  unfold profile_column.
  destruct (match infer_role s with RNumeric => _ | RDatetime => _ | _ => _ end);
    cbn [bind]; [discriminate|]. now inversion 1.
Qed.

Lemma unique_length (l : list Cell) : (length (unique l) <= length l)%nat.
Proof.
  induction l as [|x l IH]; simpl; [lia|].
  pose proof (filter_length_le (fun y => negb (py_eq y x)) (unique l)). lia.
Qed.

Lemma count_true_bounds (l : list bool) : 0 <= count_true l <= Z.of_nat (length l).
Proof.
  unfold count_true. pose proof (filter_length_le (fun b : bool => b) l). lia.
Qed.

(** X10: the counts of a profile agree with the table.  The profile
    reports the number of rows and of columns of the table and one column
    profile per column, in column order and under the column's name; in
    each, the present and the missing cells add up to the number of rows,
    the distinct values are no more than the present cells, and the
    missing proportion is the missing count over the number of rows, zero
    for a table without rows. *)
Theorem profile_counts (df : DataFrame) (p : Profile) :
  profile_dataframe df = Ok p ->
  rowCount p = Z.of_nat (nrows df) /\
  columnCount p = Z.of_nat (ncols df) /\
  map cp_name (profile_columns p) = columns df /\
  Forall (fun cp =>
            cp_nonNullCount cp + cp_missingCount cp = rowCount p /\
            0 <= cp_missingCount cp <= rowCount p /\
            0 <= cp_distinctCount cp <= cp_nonNullCount cp /\
            (0 <= cp_missingProportion cp <= 1)%Q /\
            (cp_missingProportion cp * inject_Z (rowCount p)
             == inject_Z (cp_missingCount cp))%Q /\
            (rowCount p = 0 -> cp_missingProportion cp = 0%Q))
         (profile_columns p).
Proof.
  unfold profile_dataframe. intros H.
  destruct (mapM _ _) as [e|cols] eqn:E; cbn [bind] in H; [discriminate|].
  inversion H; subst p; clear H. cbn [rowCount columnCount profile_columns].
  assert (Hrows : nrows (convert_dtypes df) = nrows df).
  { unfold nrows, convert_dtypes. cbn [rows]. apply length_map. }
  pose proof (mapM_Forall2 _ _ _ E) as HF.
  split; [now rewrite Hrows|]. split; [reflexivity|]. split.
  - transitivity (map fst (frame_columns (convert_dtypes df)));
      [|exact (frame_columns_names (convert_dtypes df))].
    clear E. induction HF as [|[name s] cp l l' Hcp _ IH]; [reflexivity|].
    cbn [map fst]. cbn [fst snd] in Hcp.
    now rewrite (profile_column_name _ _ _ _ Hcp), IH.
  - rewrite Forall_forall. intros cp Hin.
    destruct (mapM_In _ _ _ _ E Hin) as [[name s] [Hs Hc]]. cbn [fst snd] in Hc.
    destruct (profile_column_fields _ _ _ _ Hc) as [_ [Hm [Hn [Hd _]]]].
    pose proof (frame_columns_In _ _ _ Hs) as Hlen.
    pose proof (count_true_isna (values s)) as Hcount.
    pose proof (count_true_bounds (map isna (values s))) as Hb.
    rewrite length_map in Hb.
    pose proof (unique_length (dropna (values s))) as Hu.
    unfold series_isna in *. unfold nunique in Hd.
    set (total := Z.of_nat (nrows (convert_dtypes df))) in *.
    set (missing := count_true (map isna (values s))) in *.
    assert (Hprop : cp_missingProportion cp
                    = (if total =? 0 then 0 else inject_Z missing / inject_Z total)%Q).
    { unfold profile_column in Hc.
      destruct (match infer_role s with RNumeric => _ | RDatetime => _ | _ => _ end);
        cbn [bind] in Hc; [discriminate|]. now inversion Hc. }
    rewrite Hn, Hm, Hd, Hprop.
    split; [lia|]. split; [lia|]. split; [lia|].
    destruct (Z.eqb_spec total 0) as [E0|E0].
    + assert (missing = 0) by lia.
      split; [split; discriminate|]. split; [|reflexivity].
      rewrite E0. replace missing with 0 by lia. reflexivity.
    + assert (Htot : (0 < inject_Z total)%Q) by (unfold Qlt; simpl; lia).
      assert (Hmis : (0 <= inject_Z missing)%Q) by (unfold Qle; simpl; lia).
      assert (Hle : (inject_Z missing <= inject_Z total)%Q) by (unfold Qle; simpl; lia).
      split; [split|split].
      * apply Qle_shift_div_l; [exact Htot|]. lra.
      * apply Qle_shift_div_r; [exact Htot|]. lra.
      * field. lra.
      * intros; contradiction.
Qed.


Lemma profile_column_sample (total : Z) (name : string) (s : Series) (cp : ColumnProfile) :
  profile_column total name s = Ok cp -> cp_sampleValues cp = series_sample s 5.
Proof.
  unfold profile_column.
  destruct (match infer_role s with RNumeric => _ | RDatetime => _ | _ => _ end);
    cbn [bind]; [discriminate|]. now inversion 1.
Qed.

Lemma to_python_value_present (c : Cell) : notna c = true -> notna (to_python_value c) = true.
Proof. destruct c; simpl; auto. Qed.

(** X12: the sample values of a column are its first present cells.  A
    column profile lists five sample values, or all the present cells of
    the column when there are fewer, in row order, and never a missing
    value. *)
Theorem profile_sample_values (df : DataFrame) (p : Profile) (cp : ColumnProfile) :
  profile_dataframe df = Ok p ->
  In cp (profile_columns p) ->
  Z.of_nat (length (cp_sampleValues cp)) = Z.min 5 (cp_nonNullCount cp) /\
  Forall (fun v => notna v = true) (cp_sampleValues cp) /\
  exists name s,
    In (name, s) (frame_columns (convert_dtypes df)) /\
    cp_name cp = name /\
    cp_sampleValues cp = map to_python_value (firstn 5 (filter notna (values s))).
Proof.
  intros Hp Hin.
  destruct (profile_dataframe_columns _ _ _ Hp Hin) as [Hrows [name [s [Hs Hc]]]].
  destruct (profile_column_fields _ _ _ _ Hc) as [_ [_ [Hn _]]].
  pose proof (frame_columns_In _ _ _ Hs) as Hlen.
  pose proof (count_true_isna (values s)) as Hcount.
  rewrite (profile_column_sample _ _ _ _ Hc). unfold series_sample.
  split; [|split].
  - rewrite length_map, length_firstn, Hn, Hrows. unfold series_isna. lia.
  - rewrite Forall_forall. intros v Hv. apply in_map_iff in Hv.
    destruct Hv as [c [<- Hc']]. apply to_python_value_present.
    apply firstn_In in Hc'. unfold dropna in Hc'. now apply filter_In in Hc'.
  - exists name, s. split; [exact Hs|]. split; [|reflexivity].
    exact (profile_column_name _ _ _ _ Hc).
Qed.
Lemma insert_desc_sorted (e : Cell * Z) (l : list (Cell * Z)) :
  StronglySorted at_least_as_frequent l ->
  StronglySorted at_least_as_frequent (insert_desc e l).
Proof.
  induction 1 as [|h l Hs IH Hh]; simpl; [repeat constructor|].
  destruct (Z.ltb_spec (snd h) (snd e)) as [Hlt|Hge].
  - constructor; [now constructor|].
    constructor; [unfold at_least_as_frequent; lia|].
    rewrite Forall_forall in *. intros x Hx. specialize (Hh x Hx).
    unfold at_least_as_frequent in *. lia.
  - constructor; [exact IH|].
    rewrite Forall_forall in *. intros x Hx.
    apply (Permutation_in _ (insert_desc_perm e l)) in Hx.
    destruct Hx as [<-|Hx]; [unfold at_least_as_frequent; lia|now apply Hh].
Qed.

Lemma sort_desc_sorted (l : list (Cell * Z)) :
  StronglySorted at_least_as_frequent (sort_desc l).
Proof.
  unfold sort_desc.
  assert (H : forall acc, StronglySorted at_least_as_frequent acc ->
                          StronglySorted at_least_as_frequent
                            (fold_left (fun acc e => insert_desc e acc) l acc)).
  { induction l as [|e l IH]; intros acc Hacc; simpl; [exact Hacc|].
    apply IH, insert_desc_sorted, Hacc. }
  apply H. constructor.
Qed.

Lemma unique_members (l : list Cell) (k : Cell) : In k (unique l) -> In k l.
Proof.
  induction l as [|x l IH]; simpl; [intros []|].
  intros [<-|H]; [now left|]. right. apply IH. now apply filter_In in H.
Qed.

(** X13: the top values are the most frequent values.  The entries of
    [top_value_counts] are [limit] entries of the frequency table of the
    column, or the whole table when it is shorter, in descending order of
    count; each carries a present value of the column and the number of
    present cells equal to it, and no value left out is more frequent
    than a value listed. *)
Theorem top_value_counts_most_frequent (s : Series) (limit : nat) :
  exists listed left_out : list (Cell * Z),
    Permutation (listed ++ left_out) (frequency_table s) /\
    map tv_value (top_value_counts s limit) = map (fun e => to_python_value (fst e)) listed /\
    map tv_count (top_value_counts s limit) = map snd listed /\
    length listed = Nat.min limit (nunique s) /\
    StronglySorted at_least_as_frequent listed /\
    (forall a b, In a listed -> In b left_out -> at_least_as_frequent a b) /\
    (forall e, In e listed ->
       In (fst e) (dropna (values s)) /\
       snd e = count_of (fst e) (dropna (values s))).
Proof.
  set (sorted := value_counts s).
  assert (Hperm : Permutation sorted (frequency_table s)).
  { unfold sorted, value_counts, frequency_table. apply sort_desc_perm. }
  assert (Hsorted : StronglySorted at_least_as_frequent sorted).
  { unfold sorted, value_counts. apply sort_desc_sorted. }
  rewrite <- (firstn_skipn limit sorted) in Hsorted.
  destruct (StronglySorted_app_split _ _ _ Hsorted) as [Hs1 Hs2].
  exists (firstn limit sorted), (skipn limit sorted).
  split; [now rewrite firstn_skipn|].
  split; [unfold top_value_counts; fold sorted; now rewrite !map_map|].
  split; [unfold top_value_counts; fold sorted; now rewrite !map_map|].
  split; [rewrite length_firstn; unfold sorted; now rewrite value_counts_length|].
  split; [exact Hs1|]. split; [exact Hs2|].
  intros e He. apply firstn_In in He.
  apply (Permutation_in _ Hperm) in He. unfold frequency_table in He.
  apply in_map_iff in He. destruct He as [v [<- Hv]]. cbn [fst snd].
  split; [now apply unique_members|reflexivity].
Qed.

Lemma min_Z_least (l : list Z) (x : Z) :
  In (min_Z x l) (x :: l) /\ forall v, In v (x :: l) -> min_Z x l <= v.
Proof.
  unfold min_Z. revert x. induction l as [|a l IH]; intros x; simpl.
  - split; [now left|]. intros v [<-|[]]. lia.
  - destruct (IH (Z.min x a)) as [Hin Hle]. split.
    + destruct Hin as [E|Hin]; [|right; now right].
      rewrite <- E. destruct (Z.min_spec x a) as [[_ ->]|[_ ->]]; [now left|right; now left].
    + intros v Hv. pose proof (Hle _ (or_introl eq_refl)) as Hm.
      destruct Hv as [<-|[<-|Hv]]; [lia|lia|]. apply Hle. now right.
Qed.

Lemma max_Z_greatest (l : list Z) (x : Z) :
  In (max_Z x l) (x :: l) /\ forall v, In v (x :: l) -> v <= max_Z x l.
Proof.
  unfold max_Z. revert x. induction l as [|a l IH]; intros x; simpl.
  - split; [now left|]. intros v [<-|[]]. lia.
  - destruct (IH (Z.max x a)) as [Hin Hle]. split.
    + destruct Hin as [E|Hin]; [|right; now right].
      rewrite <- E. destruct (Z.max_spec x a) as [[_ ->]|[_ ->]]; [right; now left|now left].
    + intros v Hv. pose proof (Hle _ (or_introl eq_refl)) as Hm.
      destruct Hv as [<-|[<-|Hv]]; [lia|lia|]. apply Hle. now right.
Qed.

(** X14: the statistics of a datetime column are the earliest and the
    latest instant its present cells parse to, formatted; when no present
    cell parses to an instant both are [None]. *)
Theorem datetime_stats_extremes (s : Series) :
  let instants := flat_map time_of (dropna (values s)) in
  (instants = [] -> _datetime_stats s = StatsDatetime None None) /\
  (instants <> [] ->
   exists earliest latest,
     _datetime_stats s
     = StatsDatetime (Some (isoformat earliest)) (Some (isoformat latest)) /\
     In earliest instants /\ In latest instants /\
     forall t, In t instants -> earliest <= t <= latest).
Proof.
  cbv zeta. unfold _datetime_stats.
  destruct (flat_map time_of (dropna (values s))) as [|t rest].
  - split; [reflexivity|congruence].
  - split; [discriminate|]. intros _.
    destruct (min_Z_least rest t) as [Hmin1 Hmin2].
    destruct (max_Z_greatest rest t) as [Hmax1 Hmax2].
    exists (min_Z t rest), (max_Z t rest).
    split; [reflexivity|]. split; [exact Hmin1|]. split; [exact Hmax1|].
    intros u Hu. split; [now apply Hmin2|now apply Hmax2].
Qed.

Lemma ratio_above_six_tenths (d n : Z) :
  0 < n ->
  (6 # 10 < inject_Z d / inject_Z n)%Q <-> 6 * n < 10 * d.
Proof.
  intros Hn.
  assert (Hpos : (0 < inject_Z n)%Q) by (unfold Qlt; cbn; lia).
  split; intros H.
  - destruct (Z.lt_ge_cases (6 * n) (10 * d)) as [Hlt|Hge]; [exact Hlt|].
    exfalso. apply (Qlt_not_le _ _ H).
    apply Qle_shift_div_r; [exact Hpos|].
    unfold Qle, Qmult, inject_Z; cbn [Qnum Qden]. lia.
  - apply Qlt_shift_div_l; [exact Hpos|].
    unfold Qlt, Qmult, inject_Z; cbn [Qnum Qden]. lia.
Qed.

(** X15: a string column is text when more than six tenths of its rows,
    missing ones included, hold distinct values, and categorical
    otherwise; a column without rows is categorical. *)
Theorem infer_role_string_column (s : Series) :
  is_string_dtype (dtype s) = true ->
  (infer_role s = RText <->
   6 * Z.of_nat (Nat.max (length (values s)) 1) < 10 * Z.of_nat (nunique s)) /\
  (infer_role s = RText \/ infer_role s = RCategorical) /\
  (values s = [] -> infer_role s = RCategorical).
Proof.
  intros Hd.
  assert (Hn : 0 < Z.of_nat (Nat.max (length (values s)) 1)) by lia.
  pose proof (ratio_above_six_tenths (Z.of_nat (nunique s)) _ Hn) as Hq.
  assert (Hrole : infer_role s
                  = if Qlt_le_dec (6 # 10)
                         (inject_Z (Z.of_nat (nunique s))
                          / inject_Z (Z.of_nat (Nat.max (length (values s)) 1)))
                    then RText else RCategorical).
  { unfold infer_role. destruct (dtype s); try discriminate; reflexivity. }
  rewrite Hrole.
  destruct (Qlt_le_dec _ _) as [Hlt|Hle].
  - split; [split; [intros _; now apply Hq|reflexivity]|].
    split; [now left|].
    intros Hv. exfalso. apply Hq in Hlt. unfold nunique in Hlt.
    rewrite Hv in Hlt. cbn in Hlt. lia.
  - split; [split; [discriminate|]|].
    + intros H. apply Hq in H. exfalso. apply (Qlt_not_le _ _ H Hle).
    + split; [now right|reflexivity].
Qed.
(** ** Bar charts: no row is lost or counted twice *)

Lemma cell_same_refl (a : Cell) : cell_same a a = true.
Proof. destruct a; [reflexivity|apply py_eq_refl; reflexivity..]. Qed.

Lemma cell_same_trans (a b c : Cell) :
  cell_same a b = true -> cell_same b c = true -> cell_same a c = true.
Proof.
  intros H1 H2.
  destruct a, b; try discriminate; destruct c; try discriminate;
    try reflexivity; exact (py_eq_trans _ _ _ H1 H2).
Qed.

Lemma key_same_refl (k : list Cell) : key_same k k = true.
Proof. induction k as [|a k IH]; simpl; [reflexivity|]. now rewrite cell_same_refl. Qed.

Lemma key_same_sym (k1 k2 : list Cell) : key_same k1 k2 = key_same k2 k1.
Proof.
  revert k2. induction k1 as [|a k1 IH]; intros [|b k2]; simpl; try reflexivity.
  now rewrite cell_same_sym, IH.
Qed.

Lemma key_same_trans (k1 k2 k3 : list Cell) :
  key_same k1 k2 = true -> key_same k2 k3 = true -> key_same k1 k3 = true.
Proof.
  revert k2 k3. induction k1 as [|a k1 IH]; intros [|b k2] [|c k3]; simpl;
    try discriminate; try reflexivity.
  intros H1 H2. apply andb_true_iff in H1, H2. destruct H1 as [H1 H1'], H2 as [H2 H2'].
  apply andb_true_iff. split; [exact (cell_same_trans _ _ _ H1 H2)|exact (IH _ _ H1' H2')].
Qed.

Lemma distinct_groups_filter (p : list Cell -> bool) (K : list (list Cell)) :
  distinct_groups K -> distinct_groups (filter p K).
Proof.
  intros HK. induction HK as [|k K Hk HK IH]; simpl; [constructor|].
  destruct (p k); [|exact IH].
  constructor; [|exact IH].
  rewrite Forall_forall in *. intros x Hx. apply filter_In in Hx. apply Hk, Hx.
Qed.

Lemma unique_keys_distinct (l : list (list Cell)) : distinct_groups (unique_keys l).
Proof.
  induction l as [|x l IH]; simpl; [constructor|].
  constructor.
  - rewrite Forall_forall. intros y Hy. apply filter_In in Hy.
    destruct Hy as [_ Hy]. now apply negb_true_iff in Hy.
  - now apply distinct_groups_filter.
Qed.

Lemma unique_keys_covers (l : list (list Cell)) (a : list Cell) :
  In a l -> exists k, In k (unique_keys l) /\ key_same a k = true.
Proof.
  induction l as [|x l IH]; intros Ha; [destruct Ha|].
  simpl. destruct Ha as [<-|Ha].
  - exists x. split; [now left|apply key_same_refl].
  - destruct (IH Ha) as [k [Hk Hak]].
    destruct (key_same k x) eqn:E.
    + exists x. split; [now left|]. exact (key_same_trans _ _ _ Hak E).
    + exists k. split; [|exact Hak]. right. apply filter_In. split; [exact Hk|].
      now rewrite E.
Qed.

Lemma insert_key_perm (k : list Cell) (l : list (list Cell)) :
  Permutation (insert_key k l) (k :: l).
Proof.
  induction l as [|h l IH]; simpl; [reflexivity|].
  destruct (key_leb k h); [reflexivity|].
  rewrite IH. apply perm_swap.
Qed.

Lemma sort_keys_perm (l : list (list Cell)) : Permutation (sort_keys l) l.
Proof.
  unfold sort_keys. induction l as [|k l IH]; simpl; [reflexivity|].
  rewrite insert_key_perm. now constructor.
Qed.

Lemma sum_Q_perm (l l' : list Q) : Permutation l l' -> (sum_Q l == sum_Q l')%Q.
Proof.
  induction 1; simpl.
  - reflexivity.
  - now rewrite IHPermutation.
  - ring.
  - now rewrite IHPermutation1.
Qed.

Lemma sum_Q_map_ext {A} (f g : A -> Q) (l : list A) :
  (forall x, In x l -> (f x == g x)%Q) ->
  (sum_Q (map f l) == sum_Q (map g l))%Q.
Proof.
  induction l as [|a l IH]; intros H; simpl; [reflexivity|].
  rewrite (H a (or_introl eq_refl)), IH; [reflexivity|].
  intros x Hx. apply H. now right.
Qed.

Lemma sum_Q_map_add {A} (f g : A -> Q) (l : list A) :
  (sum_Q (map (fun x => f x + g x) l) == sum_Q (map f l) + sum_Q (map g l))%Q.
Proof. induction l as [|a l IH]; simpl; [ring|]. rewrite IH. ring. Qed.

Lemma group_hit_none (a : list Cell) (v : Q) (K : list (list Cell)) :
  (forall k, In k K -> key_same a k = false) ->
  (sum_Q (map (fun k => if key_same a k then v else 0) K) == 0)%Q.
Proof.
  induction K as [|k K IH]; intros H; simpl; [reflexivity|].
  rewrite (H k (or_introl eq_refl)).
  rewrite IH; [ring|]. intros k' Hk'. apply H. now right.
Qed.

Lemma group_hit_once (a : list Cell) (v : Q) (K : list (list Cell)) :
  distinct_groups K ->
  (exists k, In k K /\ key_same a k = true) ->
  (sum_Q (map (fun k => if key_same a k then v else 0) K) == v)%Q.
Proof.
  intros HK. induction HK as [|k K Hk HK IH]; intros [k0 [Hin Heq]].
  - destruct Hin.
  - simpl. destruct (key_same a k) eqn:E.
    + rewrite group_hit_none; [ring|].
      intros k' Hk'. destruct (key_same a k') eqn:E'; [|reflexivity].
      rewrite Forall_forall in Hk. specialize (Hk k' Hk').
      rewrite key_same_sym in E.
      assert (Ht : key_same k' k = true).
      { rewrite key_same_sym. exact (key_same_trans k a k' E E'). }
      congruence.
    + destruct Hin as [<-|Hin]; [congruence|].
      rewrite IH; [ring|]. eauto.
Qed.

Lemma groups_cover (gk : list string) (f : WRow -> Q) (K : list (list Cell)) (m : list WRow) :
  distinct_groups K ->
  (forall r, In r m -> exists k, In k K /\ key_same (key_of gk r) k = true) ->
  (sum_Q (map (fun k => sum_Q (map f (filter (fun r => key_same (key_of gk r) k) m))) K)
   == sum_Q (map f m))%Q.
Proof.
  intros HK. induction m as [|a m IH]; intros Hc.
  - simpl. clear. induction K as [|k K IHK]; simpl; [reflexivity|].
    rewrite IHK. ring.
  - rewrite (sum_Q_map_ext _
               (fun k => (if key_same (key_of gk a) k then f a else 0)
                         + sum_Q (map f (filter (fun r => key_same (key_of gk r) k) m)))%Q).
    2:{ intros k _. simpl. destruct (key_same (key_of gk a) k); simpl; ring. }
    rewrite sum_Q_map_add, IH.
    2:{ intros b Hb. apply Hc. now right. }
    rewrite (group_hit_once _ (f a) K HK (Hc a (or_introl eq_refl))).
    simpl. ring.
Qed.

(** The groups of a grouping split the rows: what is added up group by
    group is what is added up over all the rows. *)
Lemma groupby_partition (gk : list string) (f : WRow -> Q) (w : list WRow) :
  (sum_Q (map (fun g => sum_Q (map f (snd g))) (groupby gk w)) == sum_Q (map f w))%Q.
Proof.
  unfold groupby. rewrite map_map. cbn [snd].
  rewrite (sum_Q_perm _ _
             (Permutation_map _ (sort_keys_perm (unique_keys (map (key_of gk) w))))).
  apply groups_cover; [apply unique_keys_distinct|].
  intros r Hr. apply unique_keys_covers. now apply in_map.
Qed.

Lemma get_record_from (k : string) (row : list Cell) (cols : list string) (o : nat) :
  get k (map (fun p => (snd p, cell_at (fst p) row)) (combine (seq o (length cols)) cols))
  = match index_of k cols with
    | Some j => cell_at (o + j) row
    | None => CNull
    end.
Proof.
  revert o. induction cols as [|c cols IH]; intros o; simpl; [reflexivity|].
  destruct (String.eqb k c).
  - now rewrite Nat.add_0_r.
  - rewrite IH. destruct (index_of k cols) as [j|]; simpl; [|reflexivity].
    now rewrite Nat.add_succ_r.
Qed.

Lemma get_record_of (df : DataFrame) (k : string) (row : list Cell) :
  get k (record_of (columns df) row) = row_cell df k row.
Proof.
  unfold record_of, row_cell. rewrite get_record_from.
  destruct (index_of k (columns df)); reflexivity.
Qed.

Lemma dropna_subset_records (df : DataFrame) (x : string) :
  dropna_subset [x] (records df)
  = map (record_of (columns df)) (filter (fun row => notna (row_cell df x row)) (rows df)).
Proof.
  unfold dropna_subset, records.
  induction (rows df) as [|row l IH]; [reflexivity|].
  cbn [map filter]. rewrite IH. cbn [forallb].
  rewrite get_record_of, andb_true_r.
  destruct (notna (row_cell df x row)); reflexivity.
Qed.

Lemma present_rows_count (df : DataFrame) (x : string) (sx : Series) :
  get_column df x = Some sx ->
  length (dropna_subset [x] (records df)) = length (dropna (values sx)).
Proof.
  intros Hx. destruct (get_column_values _ _ _ Hx) as [Hv _].
  rewrite dropna_subset_records, length_map, Hv. unfold dropna. clear Hv.
  induction (rows df) as [|row l IH]; [reflexivity|].
  cbn [map filter].
  destruct (notna (row_cell df x row)); cbn [length]; now rewrite IH.
Qed.

Lemma sum_Q_inject (l : list Z) : (sum_Q (map inject_Z l) == inject_Z (sum_Z l))%Q.
Proof.
  induction l as [|a l IH]; simpl; [reflexivity|].
  rewrite IH, inject_Z_plus. reflexivity.
Qed.

Lemma sum_Q_ones {A} (l : list A) :
  (sum_Q (map (fun _ => 1) l) == inject_Z (Z.of_nat (length l)))%Q.
Proof.
  induction l as [|a l IH]; [reflexivity|].
  cbn [map sum_Q fold_right length]. fold (sum_Q (map (fun _ : A => 1%Q) l)).
  rewrite IH, Nat2Z.inj_succ, <- Z.add_1_l, inject_Z_plus. reflexivity.
Qed.

Lemma bar_chart_group_keys (df : DataFrame) (config : ChartConfig) (gk : list string) :
  match truthy (cfg_color config) with
  | Some c => _ <- ensure_column_exists df c ;; Ok [cfg_x config; c]
  | None => Ok [cfg_x config]
  end = Ok gk ->
  gk = cfg_x config :: match truthy (cfg_color config) with
                       | Some c => [c]
                       | None => []
                       end.
Proof.
  destruct (truthy (cfg_color config)) as [c|].
  - destruct (ensure_column_exists df c); simpl; [discriminate|]. now inversion 1.
  - now inversion 1.
Qed.

(** X16: the values of a count bar chart add up to the number of rows
    whose [x] cell is present: every such row is counted in exactly one
    bar, whatever its colour cell holds. *)
Theorem bar_chart_count_total (df : DataFrame) (config : ChartConfig) (sx : Series)
  (data : list BarRecord) :
  aggregation config = COUNT ->
  get_column df (cfg_x config) = Some sx ->
  _bar_chart df config = Ok data ->
  exists counts : list Z,
    map bar_value data = map (fun n => Some (inject_Z n)) counts /\
    sum_Z counts = Z.of_nat (length (dropna (values sx))).
Proof.
  intros Hagg Hx H. unfold _bar_chart in H.
  unfold ensure_column_exists at 1 in H. rewrite Hx in H. simpl in H.
  destruct (match truthy (cfg_color config) with Some c => _ | None => _ end)
    as [e|gk] eqn:Egk; simpl in H; [discriminate|].
  rewrite Hagg in H.
  destruct (reset_index gk _) as [e|grouped] eqn:Er; simpl in H; [discriminate|].
  apply reset_index_ok in Er. inversion H; subst data grouped. clear H.
  set (working := dropna_subset [cfg_x config] (records df)).
  exists (map (fun g => Z.of_nat (length (snd g))) (groupby gk working)).
  split; [now rewrite !map_map|].
  rewrite <- (present_rows_count df _ sx Hx). fold working.
  apply inject_Z_injective.
  rewrite <- sum_Q_inject, map_map, <- sum_Q_ones.
  rewrite <- (groupby_partition gk (fun _ => 1%Q) working).
  apply sum_Q_map_ext. intros g _. now rewrite sum_Q_ones.
Qed.






End DataExplorer.

(** * Concrete evaluations

    The library routines are instantiated by the reference reading of
    numerals, and the theorems above are applied to small tables. *)

(** C6 at work: a table of the integers one to ten, a range filter, and
    one more filter. *)
Lemma apply_filters_monotonic_witness :
  exists r r',
    apply_filters parse_natural no_datetime one_to_ten
      [RangeFilter "v" (Some (CInt 3)) (Some (CStr "8"))] = Ok r /\
    apply_filters parse_natural no_datetime one_to_ten
      ([RangeFilter "v" (Some (CInt 3)) (Some (CStr "8"))] ++ [EqualsFilter "v" (CInt 5)])
    = Ok r' /\
    (nrows r' <= nrows r)%nat /\ (nrows r <= nrows one_to_ten)%nat.
Proof.
  destruct (apply_filters_monotonic parse_natural no_datetime one_to_ten
              [RangeFilter "v" (Some (CInt 3)) (Some (CStr "8"))]
              (EqualsFilter "v" (CInt 5))) as [H1 H2].
  eexists. eexists.
  split; [vm_compute; reflexivity|].
  split; [vm_compute; reflexivity|].
  split.
  - destruct (H2 _ ltac:(vm_compute; reflexivity)) as [r [Hr Hle]].
    vm_compute in Hr. injection Hr as <-. exact Hle.
  - apply H1. vm_compute. reflexivity.
Defined.

(** C8 at work: a filter on a column the table lacks changes nothing. *)
Lemma apply_filters_skips_absent_witness :
  apply_filters parse_natural no_datetime one_to_ten
    [EqualsFilter "w" (CInt 1); RangeFilter "v" (Some (CInt 9)) None]
  = apply_filters parse_natural no_datetime one_to_ten
      [RangeFilter "v" (Some (CInt 9)) None] /\
  apply_filters parse_natural no_datetime one_to_ten [EqualsFilter "w" (CInt 1)]
  = Ok one_to_ten.
Proof.
  split.
  - exact (proj1 (apply_filters_skips_absent parse_natural no_datetime one_to_ten
                    [EqualsFilter "w" (CInt 1); RangeFilter "v" (Some (CInt 9)) None])).
  - apply (proj2 (apply_filters_skips_absent parse_natural no_datetime one_to_ten
                    [EqualsFilter "w" (CInt 1)])).
    reflexivity.
Defined.

(** C7 at work: a blank literal against a float column selects the row
    whose cell is missing. *)
Lemma equals_filter_selects_witness :
  apply_filters parse_natural no_datetime one_gap_three [EqualsFilter "v" (CStr "  ")]
  = Ok {| columns := ["v"]; dtypes := [DFloat]; rows := [[CNull]] |}.
Proof.
  destruct (equals_filter_selects parse_natural no_datetime one_gap_three "v"
              (CStr "  ") (column_at one_gap_three 0) eq_refl) as [H _].
  rewrite H. reflexivity.
Defined.










(** The scatter chart of two well-formed rows: both are kept and come out
    in ascending order of [x]. *)
Lemma scatter_points_spec_witness :
  exists pts,
    _scatter_points parse_natural coerce_natural plain_isoformat
      two_points (scatter_of_xy None) 500 = Ok pts /\
    (length pts <= 500)%nat /\
    Permutation (map point_xy pts)
                [(FVal (2 # 1), FVal (3 # 1)); (FVal (1 # 1), FVal (4 # 1))] /\
    Sorted (fun p q => float_le (pt_x p) (pt_x q)) pts.
Proof.
  apply (scatter_points_spec parse_natural coerce_natural plain_isoformat
           two_points (scatter_of_xy None) 500 "y"
           (column_at two_points 0) (column_at two_points 1)
           eq_refl eq_refl eq_refl).
  intros c Hc. discriminate.
Defined.

(** C4 fails on the code: when the colour column is the [x] column, the
    raw column replaces the coerced one, the rows are ordered as strings,
    and the points come out as ten before nine. *)
Theorem scatter_colour_alias_unsorted :
  _scatter_points parse_natural coerce_natural plain_isoformat
    strings_and_floats (scatter_of_xy (Some "x")) 500
  = Ok [ {| pt_x := FVal (10 # 1); pt_y := FVal (1 # 1); pt_color := Some (CStr "10") |};
         {| pt_x := FVal (9 # 1); pt_y := FVal (2 # 1); pt_color := Some (CStr "9") |} ] /\
  _scatter_points parse_natural coerce_natural plain_isoformat
    strings_and_floats (scatter_of_xy None) 500
  = Ok [ {| pt_x := FVal (9 # 1); pt_y := FVal (2 # 1); pt_color := None |};
         {| pt_x := FVal (10 # 1); pt_y := FVal (1 # 1); pt_color := None |} ].
Proof. split; vm_compute; reflexivity. Qed.

(** ** The registry, the filters, the profile and the charts at work *)

(** X3 at work: of two datasets the one uploaded last is the most
    recent. *)
Lemma list_recent_latest_witness :
  Z.of_nat (length (list_recent two_datasets 1)) = 1 /\
  StronglySorted newer_or_equal (list_recent two_datasets 1) /\
  map record_dataset_id (list_recent two_datasets 1) = ["b"].
Proof.
  destruct (list_recent_latest two_datasets 1 ltac:(lia)) as [H1 [H2 _]].
  split; [rewrite H1; reflexivity|]. split; [exact H2|reflexivity].
Defined.

(** X4 at work: the registry of two datasets is well formed, and stays
    so after a third upload and after it is emptied. *)
Lemma store_invariant_witness :
  store_ok two_datasets /\
  store_ok (snd (create two_datasets "c" 3 "third" None single_five blank_profile)) /\
  store_ok (clear two_datasets).
Proof.
  assert (Hok : store_ok two_datasets).
  { split.
    - constructor; [intros [H|[]]; discriminate|].
      constructor; [intros []|constructor].
    - repeat constructor. }
  destruct (store_invariant two_datasets Hok) as [H1 [_ [H3 _]]].
  split; [exact Hok|]. split; [apply H1|exact H3].
Defined.

(** X5 at work: the integers one to ten between three and eight. *)
Lemma range_filter_selects_witness :
  apply_filters parse_natural no_datetime one_to_ten
    [RangeFilter "v" (Some (CFloat 3)) (Some (CFloat 8))]
  = Ok {| columns := ["v"]; dtypes := [DInt];
          rows := map (fun z => [CInt z]) [3; 4; 5; 6; 7; 8] |}.
Proof.
  assert (Hn : Forall numeric_cell (values (column_at one_to_ten 0))).
  { repeat (constructor; [right; eexists; reflexivity|]). constructor. }
  exact (range_filter_selects parse_natural no_datetime one_to_ten "v"
           (Some 3%Q) (Some 8%Q) (column_at one_to_ten 0) eq_refl eq_refl Hn).
Defined.

(** X6 at work: the two filters of a request in the other order. *)
Lemma apply_filters_any_order_witness :
  apply_filters parse_natural no_datetime one_to_ten
    [EqualsFilter "v" (CInt 5); RangeFilter "v" (Some (CInt 3)) None]
  = Ok {| columns := ["v"]; dtypes := [DInt]; rows := [[CInt 5]] |}.
Proof.
  apply (apply_filters_any_order parse_natural no_datetime one_to_ten
           [RangeFilter "v" (Some (CInt 3)) None; EqualsFilter "v" (CInt 5)]
           [EqualsFilter "v" (CInt 5); RangeFilter "v" (Some (CInt 3)) None]
           _ (perm_swap _ _ _)).
  vm_compute. reflexivity.
Defined.

(** X7 at work: the literal [yes] against a boolean column selects no
    row, although two of its cells are true. *)
Lemma boolean_text_matches_nothing_witness :
  apply_filters parse_natural no_datetime flagged_sales [EqualsFilter "flag" (CStr "yes")]
  = Ok {| columns := ["flag"; "city"; "amount"]; dtypes := [DBool; DObject; DFloat];
          rows := [] |}.
Proof.
  assert (Hs : strip "yes" <> EmptyString) by (vm_compute; discriminate).
  assert (Hc : Forall (fun c => is_str c = false) (values (column_at flagged_sales 0))).
  { repeat constructor. }
  exact (proj2 (boolean_text_matches_nothing parse_natural no_datetime flagged_sales
                  "flag" "yes" (column_at flagged_sales 0) eq_refl eq_refl Hs eq_refl Hc)).
Defined.

(** X8 at work: a range filter, then an Equals filter on what it
    returns. *)
Lemma apply_filters_in_stages_witness :
  exists r1,
    apply_filters parse_natural no_datetime one_to_ten
      [RangeFilter "v" (Some (CInt 3)) None] = Ok r1 /\
    apply_filters parse_natural no_datetime r1 [EqualsFilter "v" (CInt 5)]
    = Ok {| columns := ["v"]; dtypes := [DInt]; rows := [[CInt 5]] |}.
Proof.
  apply (apply_filters_in_stages parse_natural no_datetime one_to_ten
           [RangeFilter "v" (Some (CInt 3)) None] [EqualsFilter "v" (CInt 5)]).
  vm_compute. reflexivity.
Defined.

(** X9 at work: the integers from eight on, filtered once more. *)
Lemma apply_filters_idempotent_witness :
  apply_filters parse_natural no_datetime
    {| columns := ["v"]; dtypes := [DInt]; rows := [[CInt 8]; [CInt 9]; [CInt 10]] |}
    [RangeFilter "v" (Some (CInt 8)) None]
  = Ok {| columns := ["v"]; dtypes := [DInt]; rows := [[CInt 8]; [CInt 9]; [CInt 10]] |}.
Proof.
  apply (apply_filters_idempotent parse_natural no_datetime one_to_ten).
  vm_compute. reflexivity.
Defined.

(** X10 at work: the profile of a column of three cells, one missing. *)
Lemma profile_counts_witness :
  exists p,
    profile_dataframe parse_natural no_datetime plain_isoformat whole_sqrt
      no_memory_usage one_gap_three = Ok p /\
    rowCount p = 3 /\ columnCount p = 1 /\
    map cp_name (profile_columns p) = ["v"] /\
    Forall (fun cp => cp_nonNullCount cp + cp_missingCount cp = 3)
           (profile_columns p).
Proof.
  destruct (profile_dataframe parse_natural no_datetime plain_isoformat whole_sqrt
              no_memory_usage one_gap_three) as [e|p] eqn:E;
    [vm_compute in E; discriminate|].
  destruct (profile_counts parse_natural no_datetime plain_isoformat whole_sqrt
              no_memory_usage one_gap_three p E) as [H1 [H2 [H3 H4]]].
  exists p. split; [reflexivity|]. split; [exact H1|]. split; [exact H2|].
  split; [exact H3|].
  rewrite Forall_forall in *. intros cp Hcp.
  destruct (H4 cp Hcp) as [Hsum _]. rewrite Hsum. exact H1.
Defined.


(** X12 at work: the sample of a column of three cells, one missing,
    holds its two present values. *)
Lemma profile_sample_values_witness :
  exists p cp,
    profile_dataframe parse_natural no_datetime plain_isoformat whole_sqrt
      no_memory_usage one_gap_three = Ok p /\
    In cp (profile_columns p) /\
    Z.of_nat (length (cp_sampleValues cp)) = 2 /\
    Forall (fun v => notna v = true) (cp_sampleValues cp).
Proof.
  destruct (profile_dataframe parse_natural no_datetime plain_isoformat whole_sqrt
              no_memory_usage one_gap_three) as [e|p] eqn:E;
    [vm_compute in E; discriminate|].
  assert (Hcols : exists cp, In cp (profile_columns p) /\ cp_nonNullCount cp = 2).
  { vm_compute in E. injection E as <-. eexists. split; [left; reflexivity|reflexivity]. }
  destruct Hcols as [cp [Hin Hn]].
  destruct (profile_sample_values parse_natural no_datetime plain_isoformat whole_sqrt
              no_memory_usage one_gap_three p cp E Hin) as [H1 [H2 _]].
  exists p, cp. split; [reflexivity|]. split; [exact Hin|].
  split; [rewrite H1, Hn; reflexivity|exact H2].
Defined.

(** X15 at work: two distinct values among three rows make a text
    column. *)
Lemma infer_role_string_column_witness :
  infer_role (column_at three_letters 0) = RText.
Proof.
  apply (proj2 (proj1 (infer_role_string_column (column_at three_letters 0) eq_refl))).
  vm_compute. reflexivity.
Defined.

(** X16 at work: counted by city and flag, the four rows with a city
    are all counted. *)
Lemma bar_chart_count_total_witness :
  exists data counts,
    _bar_chart coerce_natural plain_isoformat flagged_sales bar_count_by_city = Ok data /\
    map bar_value data = map (fun n => Some (inject_Z n)) counts /\
    sum_Z counts = 4.
Proof.
  destruct (_bar_chart coerce_natural plain_isoformat flagged_sales bar_count_by_city)
    as [e|data] eqn:E; [vm_compute in E; discriminate|].
  destruct (bar_chart_count_total coerce_natural plain_isoformat flagged_sales
              bar_count_by_city (column_at flagged_sales 1) data eq_refl eq_refl E)
    as [counts [H1 H2]].
  exists data, counts. split; [reflexivity|]. split; [exact H1|exact H2].
Defined.

